(** * A shallow embedding of [app.py]: SharePoint upload / download proxy.

    The Python module talks to three outside parties: the identity
    provider (MSAL token acquisition), the storage provider (Microsoft
    Graph, through [requests]) and standard output ([print]).  The
    embedding keeps the code's own shape: string helpers are total
    functions on [string]; every function that performs I/O lives in a
    small state-and-exception monad whose state is the log of what has
    happened so far, and the outside world is an oracle consulted with that
    log. *)

From Stdlib Require Import String Ascii List ZArith Lia Bool DecimalString.
Import ListNotations.

#[local] Set Warnings "-register-all".

Open Scope string_scope.
Open Scope Z_scope.

(** ** Python string primitives used by the module *)

Module PyStr.

(** [s.startswith(p)] is [String.prefix p s] of the Standard Library. *)

(** [s.replace(old, new)] for a non-empty [old]: scan from the left; at an
    occurrence of [old] emit [new] and jump over the occurrence, otherwise
    copy one character.  [skip] counts the characters of the occurrence
    that are still to be jumped over. *)
Fixpoint replace_from (old new : string) (skip : nat) (s : string) : string :=
  match s with
  | EmptyString => EmptyString
  | String c s' =>
      match skip with
      | S k => replace_from old new k s'
      | O =>
          if prefix old s
          then new ++ replace_from old new (Nat.pred (String.length old)) s'
          else String c (replace_from old new 0 s')
      end
  end.

Definition replace (old new s : string) : string := replace_from old new 0 s.

(** [s.lstrip(c)], [s.rstrip(c)], [s.strip(c)] for a one-character [c]. *)
Fixpoint lstrip (c : ascii) (s : string) : string :=
  match s with
  | EmptyString => EmptyString
  | String a s' => if Ascii.eqb a c then lstrip c s' else s
  end.

Fixpoint rstrip (c : ascii) (s : string) : string :=
  match s with
  | EmptyString => EmptyString
  | String a s' =>
      match rstrip c s' with
      | EmptyString => if Ascii.eqb a c then EmptyString else String a EmptyString
      | r => String a r
      end
  end.

Definition strip (c : ascii) (s : string) : string := rstrip c (lstrip c s).

(** [s.split(c)] for a one-character separator: never the empty list. *)
Fixpoint split (c : ascii) (s : string) : list string :=
  match s with
  | EmptyString => [EmptyString]
  | String a s' =>
      if Ascii.eqb a c then EmptyString :: split c s'
      else match split c s' with
           | h :: t => String a h :: t
           | [] => [String a EmptyString]
           end
  end.

(** Truthiness of a [str]: non-empty. *)
Definition truthy (s : string) : bool :=
  match s with EmptyString => false | String _ _ => true end.

(** [filter(None, l)] on a list of strings keeps the truthy ones. *)
Definition filter_none (l : list string) : list string := filter truthy l.

(** [sep.join(l)] is [String.concat sep l]. *)
Definition join (sep : string) (l : list string) : string := String.concat sep l.

(** [s.rsplit(c, 1)]: split once, at the last occurrence of [c].
    [rsplit1 c s = (None, s)] when [c] does not occur (Python returns the
    one-element list [[s]]), and [(Some before, after)] otherwise. *)
Fixpoint rsplit1 (c : ascii) (s : string) : option string * string :=
  match s with
  | EmptyString => (None, EmptyString)
  | String a s' =>
      match rsplit1 c s' with
      | (Some before, after) => (Some (String a before), after)
      | (None, after) =>
          if Ascii.eqb a c then (Some EmptyString, after)
          else (None, String a after)
      end
  end.

(** [str(n)] for an [int]. *)
Definition str_of_int (n : Z) : string := NilZero.string_of_int (Z.to_int n).

(** Membership of a character. *)
Fixpoint occurs (c : ascii) (s : string) : bool :=
  match s with
  | EmptyString => false
  | String a s' => Ascii.eqb a c || occurs c s'
  end.

(** The last character of [s] is [c]. *)
Fixpoint ends_with_char (c : ascii) (s : string) : bool :=
  match s with
  | EmptyString => false
  | String a EmptyString => Ascii.eqb a c
  | String _ s' => ends_with_char c s'
  end.

End PyStr.

(** ** The path normalizer (app.py, [clean_sharepoint_path]) *)

Definition clean_sharepoint_path (path : string) : string :=
  let path := PyStr.replace ":/content" "" path in
  let path := PyStr.strip "/" path in
  PyStr.join "/" (PyStr.filter_none (PyStr.split "/" path)).

(** ** Python values, exceptions and the outside world *)

(** The Python values that flow through the module: what [response.json()]
    can decode to, what the functions return and what [jsonify] is given.
    A [dict] is an association list read at its first matching key.  Only
    integral numbers are represented. *)
Inductive value : Type :=
| VNone
| VBool (b : bool)
| VInt (n : Z)
| VStr (s : string)
| VList (l : list value)
| VDict (d : list (string * value)).

(** Exceptions the module can meet; all of them are subclasses of Python's
    [Exception].  [LibraryError cls msg] stands for whatever [msal],
    [requests] or the JSON decoder raise. *)
Inductive exn : Type :=
| KeyError (key : string)
| AttributeError (msg : string)
| UnboundLocalError (var : string)
| LibraryError (cls msg : string).

Inductive res (A : Type) : Type :=
| Ret (a : A)
| Raise (e : exn).
Arguments Ret {A} a.
Arguments Raise {A} e.

Inductive method : Type := GET | POST | PUT.

Inductive payload : Type :=
| NoBody
| JsonBody (v : value)
| DataBody (bytes : string).

(** A header [dict]: string keys, string values, insertion order. *)
Definition headers : Type := list (string * string).

Record request : Type := mkRequest {
  req_method : method;
  req_url : string;
  req_headers : headers;
  req_body : payload }.

(** What the module reads of a [requests.Response]. *)
Record response : Type := mkResponse {
  status_code : Z;
  text : string;
  json : res value }.

Record token_request : Type := mkTokenRequest {
  tr_client_id : string;
  tr_authority : string;
  tr_client_credential : string;
  tr_scopes : list string }.

(** Everything observable, in the order it happened.  [EvToken] carries the
    [access_token] entry of the dictionary MSAL returned, when it has one. *)
Inductive event : Type :=
| EvToken (rq : token_request) (out : res (option string))
| EvHttp (rq : request) (out : res response)
| EvPrint (args : list value).

(** The outside world: it answers a token request or an HTTP request knowing
    everything that happened before. *)
Record world : Type := mkWorld {
  identity : list event -> token_request -> res (option string);
  provider : list event -> request -> res response }.

(** Process configuration read from the environment at import time. *)
Record config : Type := mkConfig {
  SP_CLIENT_ID : string;
  SP_CLIENT_SECRET : string;
  SP_TENANT_ID : string;
  SP_SITE_ID : string }.

(** ** The monad: a log of events and Python exceptions *)

Definition M (A : Type) : Type := list event -> res A * list event.

Definition ret {A : Type} (a : A) : M A := fun log => (Ret a, log).

Definition raise {A : Type} (e : exn) : M A := fun log => (Raise e, log).

Definition bind {A B : Type} (m : M A) (k : A -> M B) : M B :=
  fun log =>
    match m log with
    | (Ret a, log') => k a log'
    | (Raise e, log') => (Raise e, log')
    end.

(** [try: m  except Exception as e: h e] *)
Definition try_except {A : Type} (m : M A) (h : exn -> M A) : M A :=
  fun log =>
    match m log with
    | (Ret a, log') => (Ret a, log')
    | (Raise e, log') => h e log'
    end.

Declare Scope py_scope.
Delimit Scope py_scope with py.
Notation "x <- m ;; k" := (bind m (fun x => k))
  (at level 61, m at next level, right associativity) : py_scope.
Notation "m ;;; k" := (bind m (fun _ => k))
  (at level 61, right associativity) : py_scope.
Open Scope py_scope.

(** ** Python helpers on values *)

Fixpoint assoc {A : Type} (k : string) (d : list (string * A)) : option A :=
  match d with
  | [] => None
  | (k', v) :: t => if String.eqb k' k then Some v else assoc k t
  end.

(** [d[k] = v] on a header dictionary. *)
Fixpoint dict_set (k v : string) (d : headers) : headers :=
  match d with
  | [] => [(k, v)]
  | (k', v') :: t =>
      if String.eqb k' k then (k, v) :: t else (k', v') :: dict_set k v t
  end.

(** Truth value of an object, as [not x] tests it. *)
Definition truthy (v : value) : bool :=
  match v with
  | VNone => false
  | VBool b => b
  | VInt n => negb (n =? 0)
  | VStr s => PyStr.truthy s
  | VList l => match l with [] => false | _ => true end
  | VDict d => match d with [] => false | _ => true end
  end.

(** [v == n] for an [int] literal [n]. *)
Definition eq_int (v : value) (n : Z) : bool :=
  match v with
  | VInt m => m =? n
  | VBool b => (if b then 1 else 0) =? n
  | _ => false
  end.

Definition type_name (v : value) : string :=
  match v with
  | VNone => "NoneType"
  | VBool _ => "bool"
  | VInt _ => "int"
  | VStr _ => "str"
  | VList _ => "list"
  | VDict _ => "dict"
  end.

(** [data.get(k)]: a dictionary answers, with [None] for a missing key; any
    other decoded JSON value has no attribute [get]. *)
Definition py_get (data : value) (k : string) : M value :=
  match data with
  | VDict d => ret (match assoc k d with Some v => v | None => VNone end)
  | _ => raise (AttributeError
                  ("'" ++ type_name data ++ "' object has no attribute 'get'"))
  end.

(** [str(e)] *)
Definition str_exn (e : exn) : string :=
  match e with
  | KeyError key => "'" ++ key ++ "'"
  | AttributeError msg => msg
  | UnboundLocalError var =>
      "cannot access local variable '" ++ var
        ++ "' where it is not associated with a value"
  | LibraryError _ msg => msg
  end.

(** [x in [200, 201]] *)
Definition in_200_201 (n : Z) : bool := (n =? 200) || (n =? 201).

Definition failure : value := VInt (-1).

(** ** The module's functions *)

Section App.

Variable cfg : config.
Variable w : world.

Definition log_event (ev : event) : M unit :=
  fun log => (Ret tt, (log ++ [ev])%list).

(** [print(a, b, ...)]: the arguments, as given. *)
Definition print (args : list value) : M unit := log_event (EvPrint args).

(** [ConfidentialClientApplication(...).acquire_token_for_client(scopes=...)]:
    the construction of the client and the token call are one question to
    the identity provider. *)
Definition acquire_token_for_client (rq : token_request) : M (option string) :=
  fun log =>
    let out := identity w log rq in (out, (log ++ [EvToken rq out])%list).

Definition send (rq : request) : M response :=
  fun log =>
    let out := provider w log rq in (out, (log ++ [EvHttp rq out])%list).

Definition requests_get (url : string) (hdr : headers) : M response :=
  send (mkRequest GET url hdr NoBody).

Definition requests_post (url : string) (hdr : headers) (body : value)
  : M response :=
  send (mkRequest POST url hdr (JsonBody body)).

Definition requests_put (url : string) (hdr : headers) (data : string)
  : M response :=
  send (mkRequest PUT url hdr (DataBody data)).

(** [response.json()] *)
Definition response_json (r : response) : M value :=
  fun log => (json r, log).

Definition graph_sites : string :=
  "https://graph.microsoft.com/v1.0/sites/" ++ SP_SITE_ID cfg.

(** app.py, [fetch_header] *)
Definition fetch_header : M headers :=
  let authority_url :=
    "https://login.microsoftonline.com/" ++ SP_TENANT_ID cfg in
  token_response <-
    acquire_token_for_client
      (mkTokenRequest (SP_CLIENT_ID cfg) authority_url (SP_CLIENT_SECRET cfg)
                      ["https://graph.microsoft.com/.default"]) ;;
  match token_response with
  | Some access_token => ret [("Authorization", "Bearer " ++ access_token)]
  | None => raise (KeyError "access_token")
  end.

(** The local variables of [create_folder_by_path] that the loop touches.
    [part] and [create_url] are unbound ([None]) until first assigned;
    [header] is the one dictionary that the loop mutates in place. *)
Record locals : Type := mkLocals {
  header : headers;
  current_path : string;
  part : option string;
  create_url : option string }.

(** How one iteration ends: fall through to the next one ([continue]
    included) or leave the function with [return v]. *)
Inductive flow : Type :=
| Next (st : locals)
| Return (v : value).

(** The body of [for part in parts:] *)
Definition loop_body (p : string) (st : locals) : M flow :=
  let st := mkLocals (header st) (current_path st) (Some p) (create_url st) in
  if negb (PyStr.truthy p) then ret (Next st)
  else
    let check_url := graph_sites ++ "/" ++ current_path st ++ "/" ++ p in
    check_response <- requests_get check_url (header st) ;;
    if in_200_201 (status_code check_response) then
      print [VStr ("Folder '" ++ p ++ "' exists.")] ;;;
      ret (Next (mkLocals (header st) (current_path st ++ "/" ++ p)
                          (Some p) (create_url st)))
    else
      let cu := graph_sites ++ "/" ++ current_path st ++ ":/children" in
      let hdr := dict_set "Content-Type" "application/json" (header st) in
      let folder_data :=
        VDict [("name", VStr p); ("folder", VDict []);
               ("@microsoft.graph.conflictBehavior", VStr "rename")] in
      create_response <- requests_post cu hdr folder_data ;;
      if in_200_201 (status_code create_response) then
        print [VStr ("Folder '" ++ p ++ "' created.")] ;;;
        ret (Next (mkLocals hdr (current_path st ++ "/" ++ p)
                            (Some p) (Some cu)))
      else
        body <- response_json create_response ;;
        print [VStr ("Error creating folder '" ++ p ++ "':"); body] ;;;
        ret (Return failure).

Fixpoint for_parts (parts : list string) (st : locals) : M flow :=
  match parts with
  | [] => ret (Next st)
  | p :: rest =>
      r <- loop_body p st ;;
      match r with
      | Next st' => for_parts rest st'
      | Return v => ret (Return v)
      end
  end.

(** app.py, [create_folder_by_path] *)
Definition create_folder_by_path (path : string) : M value :=
  hdr <- fetch_header ;;
  let parts := PyStr.split "/" path in
  r <- for_parts parts (mkLocals hdr "drive/root:" None None) ;;
  match r with
  | Return v => ret v
  | Next st =>
      match create_url st with
      | None => raise (UnboundLocalError "create_url")
      | Some cu =>
          match part st with
          | None => raise (UnboundLocalError "part")
          | Some p =>
              ret (VStr (PyStr.replace ":/children" ("/" ++ p ++ ":/children") cu))
          end
      end
  end.

(** app.py, [fetch_file] *)
Definition fetch_file (path filename : string) : M value :=
  try_except
    (hdr <- fetch_header ;;
     let path := clean_sharepoint_path path in
     let file_path := graph_sites ++ "/drive/root:/" ++ path ++ "/" ++ filename in
     response <- requests_get file_path hdr ;;
     if status_code response =? 404 then
       print [VStr ("File not found: " ++ path ++ "/" ++ filename)] ;;;
       ret failure
     else if status_code response =? 401 then
       print [VStr "Authentication failed. Token might be expired."] ;;;
       ret failure
     else if status_code response =? 403 then
       print [VStr "Permission denied to access file."] ;;;
       ret failure
     else if negb (in_200_201 (status_code response)) then
       print [VStr ("Unexpected error "
                      ++ PyStr.str_of_int (status_code response)
                      ++ ": " ++ text response)] ;;;
       ret failure
     else
       data <- response_json response ;;
       download_url <- py_get data "@microsoft.graph.downloadUrl" ;;
       if negb (truthy download_url) then
         print [VStr "Download URL not found in response"] ;;;
         ret failure
       else ret download_url)
    (fun e =>
       print [VStr ("Error fetching file: " ++ str_exn e)] ;;;
       ret failure).

(** app.py, [upload_file] *)
Definition upload_file (path filename file_contents : string) : M value :=
  hdr <- fetch_header ;;
  let root_path := graph_sites ++ "/drive/root:" in
  let file_path := root_path ++ "/" ++ path ++ "/" ++ filename ++ ":/content" in
  let hdr := dict_set "Content-Type" "text/plain" hdr in
  response <- requests_put file_path hdr file_contents ;;
  if in_200_201 (status_code response) then
    print [VStr ("Successfully uploaded " ++ filename)] ;;;
    ret (VStr file_path)
  else
    print [VStr ("Failed to upload " ++ filename)] ;;;
    ret failure.

(** *** Flask routes *)

(** An uploaded file part and the parts of a Flask request the upload route
    reads. *)
Record file_storage : Type := mkFile {
  fs_filename : string;
  fs_contents : string }.

Record flask_request : Type := mkFlaskRequest {
  files : list (string * file_storage);
  form : list (string * string) }.

(** What a route returns: [jsonify(body), status]. *)
Definition reply : Type := (value * Z)%type.

(** app.py, [upload_file_endpoint] *)
Definition upload_file_endpoint (rq : flask_request) : M reply :=
  try_except
    (match assoc "file" (files rq) with
     | None => ret (VDict [("error", VStr "No file provided")], 400)
     | Some file =>
         if String.eqb (fs_filename file) "" then
           ret (VDict [("error", VStr "Empty filename")], 400)
         else
           let path :=
             clean_sharepoint_path
               (match assoc "path" (form rq) with Some p => p | None => "" end) in
           folder_path <- create_folder_by_path path ;;
           if eq_int folder_path (-1) then
             ret (VDict [("error", VStr "Failed to create folder structure")], 500)
           else
             result <- upload_file path (fs_filename file) (fs_contents file) ;;
             if eq_int result (-1) then
               ret (VDict [("error", VStr "Failed to upload file")], 500)
             else
               ret (VDict [("message", VStr "File uploaded successfully");
                           ("path", result)], 201)
     end)
    (fun e => ret (VDict [("error", VStr (str_exn e))], 500)).

(** app.py, [fetch_file_endpoint] *)
Definition fetch_file_endpoint (filepath : string) : M reply :=
  try_except
    (let path_parts := PyStr.rsplit1 "/" filepath in
     let filename := snd path_parts in
     let path := match fst path_parts with Some d => d | None => "" end in
     let path := clean_sharepoint_path path in
     download_url <- fetch_file path filename ;;
     if eq_int download_url (-1) then
       ret (VDict [("error", VStr "Failed to fetch file")], 404)
     else
       ret (VDict [("download_url", download_url);
                   ("filename", VStr filename);
                   ("path", VStr path)], 200))
    (fun e => ret (VDict [("error", VStr (str_exn e))], 500)).

End App.

Arguments graph_sites cfg : simpl never.

(** ** The requests and states of one loop iteration *)

(** The lookup and the creation request that [create_folder_by_path] puts
    for the segment [p] when its locals are [st]. *)
Definition lookup (cfg : config) (p : string) (st : locals) : request :=
  mkRequest GET (graph_sites cfg ++ "/" ++ current_path st ++ "/" ++ p)
            (header st) NoBody.

Definition creation (cfg : config) (p : string) (st : locals) : request :=
  mkRequest POST (graph_sites cfg ++ "/" ++ current_path st ++ ":/children")
            (dict_set "Content-Type" "application/json" (header st))
            (JsonBody
               (VDict [("name", VStr p); ("folder", VDict []);
                       ("@microsoft.graph.conflictBehavior", VStr "rename")])).

(** The locals after the segment [p] was found, and after it was created. *)
Definition st_found (p : string) (st : locals) : locals :=
  mkLocals (header st) (current_path st ++ "/" ++ p) (Some p) (create_url st).

Definition st_created (cfg : config) (p : string) (st : locals) : locals :=
  mkLocals (dict_set "Content-Type" "application/json" (header st))
           (current_path st ++ "/" ++ p) (Some p)
           (Some (graph_sites cfg ++ "/" ++ current_path st ++ ":/children")).

(** The locals at loop entry, with the token [tok]. *)
Definition st_entry (tok : string) : locals :=
  mkLocals [("Authorization", "Bearer " ++ tok)] "drive/root:" None None.

(** The metadata request [fetch_file] puts for [path] and [filename] with
    the token [tok], and the content write of [upload_file]. *)
Definition metadata_request (cfg : config) (tok path filename : string)
  : request :=
  mkRequest GET
    (graph_sites cfg ++ "/drive/root:/" ++ clean_sharepoint_path path
       ++ "/" ++ filename)
    [("Authorization", "Bearer " ++ tok)] NoBody.

Definition content_write (cfg : config) (tok path filename contents : string)
  : request :=
  mkRequest PUT
    ((graph_sites cfg ++ "/drive/root:") ++ "/" ++ path ++ "/" ++ filename
       ++ ":/content")
    [("Authorization", "Bearer " ++ tok); ("Content-Type", "text/plain")]
    (DataBody contents).

(** ** Reading a run *)

(** The question [fetch_header] puts to the identity provider. *)
Definition msal_request (cfg : config) : token_request :=
  mkTokenRequest (SP_CLIENT_ID cfg)
                 ("https://login.microsoftonline.com/" ++ SP_TENANT_ID cfg)
                 (SP_CLIENT_SECRET cfg)
                 ["https://graph.microsoft.com/.default"].

(** The provider answered, and with status 200 or 201. *)
Definition answered_ok (out : res response) : Prop :=
  exists r, out = Ret r /\ in_200_201 (status_code r) = true.


(** Every lookup (GET) recorded in the log was answered with 200 or 201. *)
Definition lookups_ok (log : list event) : Prop :=
  forall rq out,
    In (EvHttp rq out) log -> req_method rq = GET -> answered_ok out.


(** In this log, every folder creation (POST) was answered with 200 or 201. *)
Definition creations_ok (log : list event) : Prop :=
  forall rq out,
    In (EvHttp rq out) log -> req_method rq = POST -> answered_ok out.

(** The same, as computable checks on a log. *)
Definition outcome_ok (out : res response) : bool :=
  match out with
  | Ret r => in_200_201 (status_code r)
  | Raise _ => false
  end.


Definition method_eqb (a b : method) : bool :=
  match a, b with
  | GET, GET | POST, POST | PUT, PUT => true
  | _, _ => false
  end.


Definition all_answersb (log : list event) (m : method)
  (check : res response -> bool) : bool :=
  forallb (fun ev =>
             match ev with
             | EvHttp rq out =>
                 if method_eqb (req_method rq) m then check out else true
             | _ => true
             end) log.


(** The HTTP requests of a log, oldest first. *)
Fixpoint http_calls (log : list event) : list request :=
  match log with
  | [] => []
  | EvHttp rq _ :: rest => rq :: http_calls rest
  | _ :: rest => http_calls rest
  end.

(** Method, URL and body of a request (its headers left out). *)
Definition summary (rq : request) : method * string * payload :=
  (req_method rq, req_url rq, req_body rq).

(** The lines printed in a log, oldest first. *)
Fixpoint printed (log : list event) : list (list value) :=
  match log with
  | [] => []
  | EvPrint args :: rest => args :: printed rest
  | _ :: rest => printed rest
  end.

(** The JSON body of a folder-creation request. *)
Definition folder_data (name : string) : value :=
  VDict [("name", VStr name); ("folder", VDict []);
         ("@microsoft.graph.conflictBehavior", VStr "rename")].

(** A list of path segments: none empty, none containing the separator. *)
Definition segments_ok (c : ascii) (l : list string) : Prop :=
  Forall (fun x => PyStr.truthy x = true /\ PyStr.occurs c x = false) l.

(** Specification, glossary: a canonical path is slash-joined with no empty,
    leading or trailing segment. *)
Definition canonical_path (s : string) : Prop :=
  exists l, segments_ok "/" l /\ s = PyStr.join "/" l.

(** The token requests of a log, oldest first. *)
Fixpoint token_requests (log : list event) : list token_request :=
  match log with
  | [] => []
  | EvToken rq _ :: rest => rq :: token_requests rest
  | _ :: rest => token_requests rest
  end.

(** The URLs of the lookups (GET) of a log, oldest first. *)
Definition get_urls (log : list event) : list string :=
  map req_url
      (filter (fun rq => method_eqb (req_method rq) GET) (http_calls log)).

(** The lookup URLs for the segments [segs] below the path [cp]: each
    segment is looked up under all the segments before it. *)
Fixpoint lookup_urls (site cp : string) (segs : list string) : list string :=
  match segs with
  | [] => []
  | seg :: rest =>
      (site ++ "/" ++ cp ++ "/" ++ seg)
        :: lookup_urls site (cp ++ "/" ++ seg) rest
  end.

(** The request carries the bearer token [tok]. *)
Definition carries_bearer (tok : string) (rq : request) : Prop :=
  assoc "Authorization" (req_headers rq) = Some ("Bearer " ++ tok).

(** A run that began with an empty log asked for a token exactly once, and
    every request in it carries the bearer token the identity provider gave
    then. *)
Definition authenticated_run (cfg : config) (w : world) (log : list event)
  : Prop :=
  token_requests log = [msal_request cfg]
  /\ forall rq,
       In rq (http_calls log) ->
       exists tok,
         identity w [] (msal_request cfg) = Ret (Some tok)
         /\ carries_bearer tok rq.

(** The path the upload route works with: the normalized [path] field of
    the form, the empty string when the field is absent. *)
Definition route_path (rq : flask_request) : string :=
  clean_sharepoint_path
    (match assoc "path" (form rq) with Some p => p | None => "" end).

(** The request is a lookup (a GET without body) or a folder creation (a
    POST of a folder description to a children collection). *)
Definition lookup_or_creation (rq : request) : Prop :=
  (req_method rq = GET /\ req_body rq = NoBody)
  \/ (req_method rq = POST
      /\ (exists name, req_body rq = JsonBody (folder_data name))
      /\ exists parent, req_url rq = parent ++ ":/children").

(** ** Locators, as the specification names them *)

(** Specification, section 3: a remote folder handle starts at the provider's
    root locator and is appended with one segment at a time. *)
Definition spec_root_handle (cfg : config) : string :=
  graph_sites cfg ++ "/drive/root:".

Definition spec_folder_handle (cfg : config) (segments : list string) : string :=
  fold_left (fun h seg => h ++ "/" ++ seg) segments (spec_root_handle cfg).

(** The children collection of a folder: the form in which
    [create_folder_by_path] hands a folder back. *)
Definition children_of (handle : string) : string := handle ++ ":/children".

(** Specification, section 7: the kinds of download-resolution failure. *)
Inductive fetch_error : Type :=
| NotFound
| AuthExpired
| PermissionDenied
| UnexpectedProviderError
| DownloadUrlMissing.

(** The failure kind a printed diagnostic of [fetch_file] stands for. *)
Definition error_of_message (m : string) : option fetch_error :=
  if prefix "File not found: " m then Some NotFound
  else if String.eqb m "Authentication failed. Token might be expired."
  then Some AuthExpired
  else if String.eqb m "Permission denied to access file."
  then Some PermissionDenied
  else if prefix "Unexpected error " m then Some UnexpectedProviderError
  else if String.eqb m "Download URL not found in response"
  then Some DownloadUrlMissing
  else None.

(** ** Sample configuration and providers *)

Definition sample_cfg : config := mkConfig "client" "secret" "tenant" "site".

Definition answer (code : Z) : response :=
  mkResponse code "" (Ret (VDict [])).

Definition mem (s : string) (l : list string) : bool :=
  existsb (String.eqb s) l.

(** A provider that knows the folders at the URLs [existing] and answers
    every creation request with [create_code]. *)
Definition folders_world (existing : list string) (create_code : Z) : world :=
  mkWorld (fun _ _ => Ret (Some "tok"))
          (fun _ rq =>
             match req_method rq with
             | GET => Ret (answer (if mem (req_url rq) existing then 200 else 404))
             | POST => Ret (answer create_code)
             | PUT => Ret (answer 201)
             end).


(** A provider that gives one and the same answer to every request. *)
Definition constant_world (out : res response) : world :=
  mkWorld (fun _ _ => Ret (Some "tok")) (fun _ _ => out).

(** An identity provider that hands out no token. *)
Definition tokenless_world : world :=
  mkWorld (fun _ _ => Ret None) (fun _ _ => Ret (answer 200)).

(** A metadata answer: status 200, a JSON object whose download-URL entry
    is [v]. *)
Definition metadata_body (v : value) : response :=
  mkResponse 200 "" (Ret (VDict [("name", VStr "report.pdf");
                                 ("@microsoft.graph.downloadUrl", v)])).

Definition sample_root : string :=
  "https://graph.microsoft.com/v1.0/sites/site/drive/root:".

(** * Properties *)

(** ** Strings *)

Section StringFacts.

Variable c : ascii.

Lemma append_empty_r (s : string) : s ++ "" = s.
Proof. induction s as [|a s IH]; simpl; [reflexivity | now rewrite IH]. Qed.

Lemma append_assoc (s t u : string) : (s ++ t) ++ u = s ++ t ++ u.
Proof. induction s as [|a s IH]; simpl; [reflexivity | now rewrite IH]. Qed.

Lemma occurs_cons_false (a : ascii) (s : string) :
  PyStr.occurs c (String a s) = false ->
  Ascii.eqb a c = false /\ PyStr.occurs c s = false.
Proof. simpl. intros H. now apply orb_false_iff in H. Qed.

Lemma split_not_nil (s : string) : PyStr.split c s <> [].
Proof.
  destruct s as [|a s]; simpl; [discriminate|].
  destruct (Ascii.eqb a c); [discriminate|].
  destruct (PyStr.split c s); discriminate.
Qed.

Lemma split_sep_free (s : string) :
  Forall (fun x => PyStr.occurs c x = false) (PyStr.split c s).
Proof.
  induction s as [|a s IH]; simpl.
  - now repeat constructor.
  - destruct (Ascii.eqb a c) eqn:E.
    + now constructor.
    + destruct (PyStr.split c s) as [|h t].
      * repeat constructor. simpl. now rewrite E.
      * inversion IH; subst. constructor; [|assumption].
        simpl. now rewrite E.
Qed.

Lemma split_one (s : string) :
  PyStr.occurs c s = false -> PyStr.split c s = [s].
Proof.
  induction s as [|a s IH]; intros H; [reflexivity|].
  apply occurs_cons_false in H as [E H]. simpl. now rewrite E, IH.
Qed.

Lemma split_app_sep (a b : string) :
  PyStr.occurs c a = false ->
  PyStr.split c (a ++ String c b) = a :: PyStr.split c b.
Proof.
  induction a as [|x a IH]; intros H; simpl.
  - now rewrite Ascii.eqb_refl.
  - apply occurs_cons_false in H as [E H]. now rewrite E, IH.
Qed.

Lemma split_join (l : list string) :
  l <> [] ->
  Forall (fun x => PyStr.occurs c x = false) l ->
  PyStr.split c (PyStr.join (String c "") l) = l.
Proof.
  unfold PyStr.join.
  induction l as [|x l IH]; intros Hne Hall; [congruence|].
  inversion Hall as [|? ? Hx Hl]; subst.
  destruct l as [|y l].
  - simpl. now apply split_one.
  - change (String.concat (String c "") (x :: y :: l))
      with (x ++ String c (String.concat (String c "") (y :: l))).
    rewrite split_app_sep by assumption.
    f_equal. apply IH; [discriminate | assumption].
Qed.

Lemma rstrip_fixed (s : string) :
  PyStr.ends_with_char c s = false -> PyStr.rstrip c s = s.
Proof.
  induction s as [|a s IH]; intros H; [reflexivity|].
  destruct s as [|b s].
  - simpl in *. now rewrite H.
  - change (PyStr.ends_with_char c (String a (String b s)))
      with (PyStr.ends_with_char c (String b s)) in H.
    change (PyStr.rstrip c (String a (String b s)))
      with (match PyStr.rstrip c (String b s) with
            | EmptyString =>
                if Ascii.eqb a c then EmptyString else String a EmptyString
            | r => String a r
            end).
    now rewrite (IH H).
Qed.

Lemma lstrip_fixed (s : string) :
  prefix (String c "") s = false -> PyStr.lstrip c s = s.
Proof.
  destruct s as [|a s]; simpl; [reflexivity|].
  destruct (ascii_dec c a) as [->|Hne].
  - destruct s; discriminate.
  - intros _. destruct (Ascii.eqb a c) eqn:E; [|reflexivity].
    apply Ascii.eqb_eq in E. congruence.
Qed.

Lemma ends_with_char_app (a b : string) :
  b <> "" -> PyStr.ends_with_char c (a ++ b) = PyStr.ends_with_char c b.
Proof.
  intros Hb. induction a as [|x a IH]; [reflexivity|].
  simpl. rewrite IH. destruct (a ++ b) eqn:E; [|reflexivity].
  destruct a; simpl in E; [congruence | discriminate].
Qed.

Lemma sep_free_no_end (s : string) :
  PyStr.occurs c s = false -> PyStr.ends_with_char c s = false.
Proof.
  induction s as [|a s IH]; intros H; [reflexivity|].
  apply occurs_cons_false in H as [E H].
  destruct s; simpl; [assumption | now apply IH].
Qed.

Lemma join_no_end (l : list string) :
  segments_ok c l ->
  PyStr.ends_with_char c (PyStr.join (String c "") l) = false.
Proof.
  unfold PyStr.join.
  induction l as [|x l IH]; intros H; [reflexivity|].
  inversion H as [|? ? [Hx1 Hx2] Hl]; subst.
  destruct l as [|y l].
  - simpl. now apply sep_free_no_end.
  - change (String.concat (String c "") (x :: y :: l))
      with (x ++ String c (String.concat (String c "") (y :: l))).
    rewrite ends_with_char_app by discriminate.
    specialize (IH Hl).
    inversion Hl as [|? ? [Hy1 Hy2] _]; subst.
    destruct (String.concat (String c "") (y :: l)) eqn:E; [|exact IH].
    destruct y; [discriminate|]. destruct l; simpl in E; discriminate.
Qed.

Lemma join_no_start (l : list string) :
  segments_ok c l ->
  prefix (String c "") (PyStr.join (String c "") l) = false.
Proof.
  unfold PyStr.join. intros H.
  destruct l as [|x l]; [reflexivity|].
  inversion H as [|? ? [Hx1 Hx2] Hl]; subst.
  destruct x as [|a x]; [discriminate|].
  apply occurs_cons_false in Hx2 as [E _].
  assert (Hhead : forall rest, prefix (String c "") (String a rest) = false).
  { intros rest. simpl. destruct (ascii_dec c a) as [->|]; [|reflexivity].
    now rewrite Ascii.eqb_refl in E. }
  destruct l; simpl; apply Hhead.
Qed.

Lemma strip_join (l : list string) :
  segments_ok c l ->
  PyStr.strip c (PyStr.join (String c "") l) = PyStr.join (String c "") l.
Proof.
  intros H. unfold PyStr.strip.
  rewrite lstrip_fixed by now apply join_no_start.
  apply rstrip_fixed. now apply join_no_end.
Qed.

Lemma filter_segments (s : string) :
  segments_ok c (PyStr.filter_none (PyStr.split c s)).
Proof.
  unfold segments_ok, PyStr.filter_none.
  pose proof (split_sep_free s) as H.
  induction H as [|x l Hx Hl IH]; simpl; [constructor|].
  destruct (PyStr.truthy x) eqn:T; [constructor|]; auto.
Qed.

Lemma filter_none_fixed (l : list string) :
  segments_ok c l -> PyStr.filter_none l = l.
Proof.
  unfold PyStr.filter_none.
  induction 1 as [|x l [Hx _] _ IH]; simpl; [reflexivity|].
  now rewrite Hx, IH.
Qed.

Lemma segments_sep_free (l : list string) :
  segments_ok c l -> Forall (fun x => PyStr.occurs c x = false) l.
Proof. induction 1 as [|x l [_ Hx] _ IH]; constructor; assumption. Qed.

End StringFacts.

(** *** [str.replace] and a pattern appended at the end *)

Section ReplaceFacts.

(** The pattern [String a t]: its first character occurs nowhere else in it,
    so two occurrences never overlap. *)
Variable a : ascii.
Variable t : string.
Hypothesis first_char_unique : PyStr.occurs a t = false.

Variable new : string.

Let old : string := String a t.

Lemma prefix_refl (s r : string) : prefix s (s ++ r) = true.
Proof.
  induction s as [|x s IH]; simpl; [now destruct r|].
  destruct (ascii_dec x x); [assumption | congruence].
Qed.

Lemma prefix_app_r (p s r : string) :
  prefix p s = true -> prefix p (s ++ r) = true.
Proof.
  revert s. induction p as [|x p IH]; intros s H; [now destruct (s ++ r)|].
  destruct s as [|y s]; simpl in *; [discriminate|].
  destruct (ascii_dec x y); [now apply IH | discriminate].
Qed.

Lemma prefix_length (p s : string) :
  prefix p s = true -> (String.length p <= String.length s)%nat.
Proof.
  revert s. induction p as [|x p IH]; intros s H; simpl; [lia|].
  destruct s as [|y s]; simpl in *; [discriminate|].
  destruct (ascii_dec x y); [|discriminate].
  apply IH in H. lia.
Qed.

Lemma prefix_before_first_char (p q r : string) :
  PyStr.occurs a p = false ->
  prefix p (q ++ String a r) = true -> prefix p q = true.
Proof.
  revert q. induction p as [|x p IH]; intros q Hp H; [now destruct q|].
  apply occurs_cons_false in Hp as [E Hp].
  destruct q as [|y q]; simpl in *.
  - destruct (ascii_dec x a) as [->|]; [|discriminate].
    now rewrite Ascii.eqb_refl in E.
  - destruct (ascii_dec x y); [now apply IH | discriminate].
Qed.

Lemma prefix_app_old (x : ascii) (q : string) :
  prefix old (String x q ++ old) = prefix old (String x q).
Proof.
  destruct (prefix old (String x q)) eqn:E.
  - now apply prefix_app_r.
  - destruct (prefix old (String x q ++ old)) eqn:E'; [|reflexivity].
    rewrite <- E. symmetry. unfold old in *. simpl in *.
    destruct (ascii_dec a x); [|discriminate].
    now apply prefix_before_first_char with (r := t).
Qed.

Lemma replace_from_skip_all (k : nat) (s : string) :
  (String.length s <= k)%nat -> PyStr.replace_from old new k s = "".
Proof.
  revert k. induction s as [|x s IH]; intros k H; [reflexivity|].
  simpl in H. destruct k as [|k]; [lia|].
  simpl. apply IH. lia.
Qed.

Lemma replace_from_app_old (q : string) (skip : nat) :
  (skip <= String.length q)%nat ->
  PyStr.replace_from old new skip (q ++ old)
  = PyStr.replace_from old new skip q ++ new.
Proof.
  revert skip. induction q as [|x q IH]; intros skip H.
  - simpl in H. assert (skip = 0)%nat as -> by lia.
    change ("" ++ old) with old.
    unfold old at 2. unfold PyStr.replace_from; fold PyStr.replace_from.
    fold old.
    replace (prefix old old) with true.
    + rewrite replace_from_skip_all by (unfold old; simpl; lia).
      apply append_empty_r.
    + symmetry. rewrite <- (append_empty_r old) at 2. apply prefix_refl.
  - destruct skip as [|k].
    + change (PyStr.replace_from old new 0 (String x q ++ old))
        with (if prefix old (String x q ++ old)
              then new ++ PyStr.replace_from old new
                            (Nat.pred (String.length old)) (q ++ old)
              else String x (PyStr.replace_from old new 0 (q ++ old))).
      rewrite prefix_app_old.
      change (PyStr.replace_from old new 0 (String x q))
        with (if prefix old (String x q)
              then new ++ PyStr.replace_from old new
                            (Nat.pred (String.length old)) q
              else String x (PyStr.replace_from old new 0 q)).
      destruct (prefix old (String x q)) eqn:E.
      * apply prefix_length in E. simpl in E.
        rewrite IH by (simpl; lia). now rewrite append_assoc.
      * rewrite IH by lia. reflexivity.
    + simpl in H. simpl. apply IH. lia.
Qed.

Lemma replace_app_old (q : string) :
  PyStr.replace old new (q ++ old) = PyStr.replace old new q ++ new.
Proof. apply replace_from_app_old. lia. Qed.

End ReplaceFacts.

(** ** The path normalizer *)

Lemma clean_is_join (p : string) :
  clean_sharepoint_path p
  = PyStr.join "/"
      (PyStr.filter_none
         (PyStr.split "/" (PyStr.strip "/" (PyStr.replace ":/content" "" p)))).
Proof. reflexivity. Qed.

Lemma clean_canonical (p : string) : canonical_path (clean_sharepoint_path p).
Proof.
  eexists. split; [|apply clean_is_join]. apply filter_segments.
Qed.

Lemma canonical_split (s : string) :
  canonical_path s -> s <> "" ->
  Forall (fun seg => seg <> "") (PyStr.split "/" s).
Proof.
  intros [l [Hl ->]] Hne.
  rewrite split_join.
  - clear Hne. induction Hl as [|x l [Hx _] _ IH]; constructor; [|exact IH].
    destruct x; discriminate.
  - now intros ->.
  - now apply segments_sep_free.
Qed.

Lemma canonical_strip (s : string) :
  canonical_path s -> PyStr.strip "/" s = s.
Proof. intros [l [Hl ->]]. now apply strip_join. Qed.

(** On a canonical path that holds no [":/content"], the normalizer changes
    nothing. *)
Lemma clean_fixed (s : string) :
  canonical_path s ->
  PyStr.replace ":/content" "" s = s ->
  clean_sharepoint_path s = s.
Proof.
  intros Hc Hr. unfold clean_sharepoint_path. rewrite Hr.
  rewrite (canonical_strip s Hc).
  destruct Hc as [l [Hl ->]].
  destruct l as [|x l]; [reflexivity|].
  rewrite split_join; [| discriminate | now apply segments_sep_free].
  now rewrite (filter_none_fixed _ _ Hl).
Qed.

(** C7, where the code departs from it: ["a://content"] has a duplicate
    separator; one pass joins ["a:"] and ["content"] into ["a:/content"],
    and the second pass removes the [":/content"] so formed. *)
Theorem clean_sharepoint_path_not_idempotent :
  clean_sharepoint_path "a://content" = "a:/content"
  /\ clean_sharepoint_path (clean_sharepoint_path "a://content") = "a"
  /\ clean_sharepoint_path (clean_sharepoint_path "a://content")
     <> clean_sharepoint_path "a://content".
Proof. repeat split. discriminate. Qed.

(** Where the first pass leaves no [":/content"] behind, a second pass
    changes nothing. *)
Lemma clean_idempotent_without_suffix (p : string) :
  PyStr.replace ":/content" "" (clean_sharepoint_path p)
  = clean_sharepoint_path p ->
  clean_sharepoint_path (clean_sharepoint_path p) = clean_sharepoint_path p.
Proof. intros H. apply clean_fixed; [apply clean_canonical | exact H]. Qed.

(** ** The folder resolver *)

Section Resolver.

Variable cfg : config.
Variable w : world.

Ltac run_monad :=
  cbv beta delta
    [bind ret raise try_except print log_event send requests_get requests_post
     requests_put response_json acquire_token_for_client] iota zeta.

Ltac ask_provider r e :=
  match goal with
  | |- context [provider w ?l ?rq] =>
      destruct (provider w l rq) as [r|e]; cbn [fst snd]
  end.

Ltac in_log :=
  solve [ repeat first
            [ assumption
            | apply in_or_app; right; simpl; now left
            | apply in_or_app; left ] ].

Lemma fetch_header_run (log : list event) :
  fetch_header cfg w log
  = (match identity w log (msal_request cfg) with
     | Ret (Some tok) => Ret [("Authorization", "Bearer " ++ tok)]
     | Ret None => Raise (KeyError "access_token")
     | Raise e => Raise e
     end,
     (log ++ [EvToken (msal_request cfg) (identity w log (msal_request cfg))])%list).
Proof.
  unfold fetch_header. run_monad. fold (msal_request cfg).
  destruct (identity w log (msal_request cfg)) as [[tok|]|e]; reflexivity.
Qed.

(** Nothing is ever removed from the log. *)
Lemma loop_body_keeps (ev : event) (p : string) (st : locals) (log : list event) :
  In ev log -> In ev (snd (loop_body cfg w p st log)).
Proof.
  intros H. unfold loop_body. run_monad.
  destruct (negb (PyStr.truthy p)); [exact H|].
  ask_provider r e; [|in_log].
  destruct (in_200_201 (status_code r)); cbn [fst snd]; [in_log|].
  ask_provider r' e'; [|in_log].
  destruct (in_200_201 (status_code r')); cbn [fst snd]; [in_log|].
  destruct (json r'); cbn [fst snd]; in_log.
Qed.

Lemma for_parts_keeps (ev : event) (parts : list string) :
  forall (st : locals) (log : list event),
    In ev log -> In ev (snd (for_parts cfg w parts st log)).
Proof.
  induction parts as [|p rest IH]; intros st log H; [exact H|].
  simpl. unfold bind at 1.
  pose proof (loop_body_keeps ev p st log H) as Hb.
  destruct (loop_body cfg w p st log) as [[[st'|v]|e] log']; simpl in *.
  - now apply IH.
  - exact Hb.
  - exact Hb.
Qed.

(** One iteration either goes on without touching [create_url], or it has
    put a lookup to the provider that was not answered with 200 or 201. *)
Lemma loop_body_cases (p : string) (st : locals) (log : list event) :
  (exists st',
      fst (loop_body cfg w p st log) = Ret (Next st')
      /\ create_url st' = create_url st)
  \/ (exists rq out,
         In (EvHttp rq out) (snd (loop_body cfg w p st log))
         /\ req_method rq = GET /\ ~ answered_ok out).
Proof.
  unfold loop_body. run_monad.
  destruct (negb (PyStr.truthy p)); [left; now eexists|].
  match goal with
  | |- context [provider w log ?rq] => set (q := rq)
  end.
  ask_provider r e.
  - destruct (in_200_201 (status_code r)) eqn:Hr; cbn [fst snd].
    + left. now eexists.
    + right. exists q, (Ret r). repeat split.
      * ask_provider r' e'; [|in_log].
        destruct (in_200_201 (status_code r')); cbn [fst snd]; [in_log|].
        destruct (json r'); cbn [fst snd]; in_log.
      * intros [r0 [H1 H2]]. inversion H1; subst. congruence.
  - right. exists q, (Raise e). repeat split; [in_log|].
    intros [r0 [H1 _]]. discriminate.
Qed.

(** C3's core: when every lookup of the run was answered with 200 or 201,
    the loop ends normally and [create_url] is as unbound as it began. *)
Lemma for_parts_all_found (parts : list string) :
  forall (st : locals) (log : list event),
    create_url st = None ->
    lookups_ok (snd (for_parts cfg w parts st log)) ->
    exists st',
      fst (for_parts cfg w parts st log) = Ret (Next st')
      /\ create_url st' = None.
Proof.
  induction parts as [|p rest IH]; intros st log Hcu Hok.
  - now exists st.
  - simpl in *. unfold bind at 1 in Hok. unfold bind at 1.
    destruct (loop_body_cases p st log) as [[st' [Hr Hc]]|[rq [out [Hin [Hm Hbad]]]]].
    + destruct (loop_body cfg w p st log) as [r log']. simpl in Hr. subst r.
      apply IH; [congruence | exact Hok].
    + exfalso. apply Hbad. apply (Hok rq out); [|exact Hm].
      destruct (loop_body cfg w p st log) as [[[st'|v]|e] log']; simpl in *;
        [now apply for_parts_keeps | exact Hin | exact Hin].
Qed.

(** The run of [create_folder_by_path] once the token is there: the loop,
    then the [return] after it. *)
Lemma create_folder_by_path_run (path tok : string) (log : list event) :
  identity w log (msal_request cfg) = Ret (Some tok) ->
  create_folder_by_path cfg w path log
  = (let run :=
       for_parts cfg w (PyStr.split "/" path)
         (mkLocals [("Authorization", "Bearer " ++ tok)] "drive/root:" None None)
         (log ++ [EvToken (msal_request cfg) (Ret (Some tok))])%list in
     match fst run with
     | Ret (Next st) =>
         match create_url st, part st with
         | None, _ => (Raise (UnboundLocalError "create_url"), snd run)
         | Some _, None => (Raise (UnboundLocalError "part"), snd run)
         | Some cu, Some p =>
             (Ret (VStr (PyStr.replace ":/children" ("/" ++ p ++ ":/children") cu)),
              snd run)
         end
     | Ret (Return v) => (Ret v, snd run)
     | Raise e => (Raise e, snd run)
     end).
Proof.
  intros Htok. unfold create_folder_by_path, bind.
  rewrite fetch_header_run, Htok. cbv zeta.
  destruct (for_parts cfg w _ _ _) as [[[st|v]|e] log']; cbn [fst snd];
    try reflexivity.
  destruct (create_url st); [destruct (part st)|]; reflexivity.
Qed.

Lemma create_folder_by_path_no_token (path : string) (log : list event) :
  (forall tok, identity w log (msal_request cfg) <> Ret (Some tok)) ->
  exists e, fst (create_folder_by_path cfg w path log) = Raise e.
Proof.
  intros H. unfold create_folder_by_path, bind.
  rewrite fetch_header_run.
  destruct (identity w log (msal_request cfg)) as [[tok|]|e];
    [now destruct (H tok) | now eexists | now eexists].
Qed.

End Resolver.

(** C3: on any path, once the token is there and the provider answers every
    lookup of the run with status 200 or 201, [create_folder_by_path] leaves
    with the exception [UnboundLocalError] for [create_url]: no handle, no
    [-1].  Without a token it raises as well. *)
Theorem create_folder_by_path_all_exist_raises
  (cfg : config) (w : world) (path : string) :
  lookups_ok (snd (create_folder_by_path cfg w path [])) ->
  (exists e, fst (create_folder_by_path cfg w path []) = Raise e)
  /\ (forall tok,
        identity w [] (msal_request cfg) = Ret (Some tok) ->
        fst (create_folder_by_path cfg w path [])
        = Raise (UnboundLocalError "create_url")).
Proof.
  intros Hok.
  assert (Hmain : forall tok,
             identity w [] (msal_request cfg) = Ret (Some tok) ->
             fst (create_folder_by_path cfg w path [])
             = Raise (UnboundLocalError "create_url")).
  { intros tok Htok. revert Hok.
    rewrite (create_folder_by_path_run cfg w path tok [] Htok). cbv zeta.
    match goal with
    | |- context [for_parts cfg w ?ps ?st ?lg] =>
        set (run := for_parts cfg w ps st lg);
        pose proof (for_parts_all_found cfg w ps st lg eq_refl) as Hloop;
        fold run in Hloop
    end.
    intros Hok.
    assert (Hrun : lookups_ok (snd run)).
    { destruct (fst run) as [[st|v]|e]; try exact Hok.
      destruct (create_url st); [destruct (part st)|]; exact Hok. }
    destruct (Hloop Hrun) as [st' [Hr Hc]].
    now rewrite Hr, Hc. }
  split; [|exact Hmain].
  destruct (identity w [] (msal_request cfg)) as [[tok|]|e] eqn:Htok.
  - eexists. now apply (Hmain tok).
  - apply create_folder_by_path_no_token. intros tok. congruence.
  - apply create_folder_by_path_no_token. intros tok. congruence.
Qed.

(** *** One iteration, by the provider's answers *)

Section ResolverSteps.

Variable cfg : config.
Variable w : world.

Ltac in_log :=
  solve [ repeat first
            [ assumption
            | apply in_or_app; right; simpl; now left
            | apply in_or_app; left ] ].

Lemma for_parts_step (p : string) (rest : list string) (st : locals)
  (log : list event) :
  PyStr.truthy p = true ->
  for_parts cfg w (p :: rest) st log
  = match provider w log (lookup cfg p st) with
    | Raise e => (Raise e, (log ++ [EvHttp (lookup cfg p st) (Raise e)])%list)
    | Ret r =>
        let log1 := (log ++ [EvHttp (lookup cfg p st) (Ret r)])%list in
        if in_200_201 (status_code r) then
          for_parts cfg w rest (st_found p st)
            (log1 ++ [EvPrint [VStr ("Folder '" ++ p ++ "' exists.")]])%list
        else
          match provider w log1 (creation cfg p st) with
          | Raise e =>
              (Raise e, (log1 ++ [EvHttp (creation cfg p st) (Raise e)])%list)
          | Ret r' =>
              let log2 := (log1 ++ [EvHttp (creation cfg p st) (Ret r')])%list in
              if in_200_201 (status_code r') then
                for_parts cfg w rest (st_created cfg p st)
                  (log2 ++ [EvPrint [VStr ("Folder '" ++ p ++ "' created.")]])%list
              else
                match json r' with
                | Raise e => (Raise e, log2)
                | Ret body =>
                    (Ret (Return failure),
                     (log2 ++ [EvPrint [VStr ("Error creating folder '" ++ p ++ "':");
                                        body]])%list)
                end
          end
    end.
Proof.
  intros Hp. unfold lookup, creation, st_found, st_created.
  change (for_parts cfg w (p :: rest) st log)
    with (bind (loop_body cfg w p st)
            (fun r => match r with
                      | Next st' => for_parts cfg w rest st'
                      | Return v => ret (Return v)
                      end) log).
  unfold loop_body. rewrite Hp.
  cbv beta delta
    [bind ret raise print log_event send requests_get requests_post
     response_json negb header current_path part create_url] iota zeta.
  destruct (provider w log _) as [r|e]; [|reflexivity].
  destruct (in_200_201 (status_code r)); [reflexivity|].
  destruct (provider w _ _) as [r'|e']; [|reflexivity].
  destruct (in_200_201 (status_code r')); [reflexivity|].
  destruct (json r'); reflexivity.
Qed.

(** An empty segment is skipped: [continue]. *)
Lemma for_parts_skip (rest : list string) (st : locals) (log : list event) :
  for_parts cfg w ("" :: rest) st log
  = for_parts cfg w rest
      (mkLocals (header st) (current_path st) (Some "") (create_url st)) log.
Proof. reflexivity. Qed.





Lemma create_folder_by_path_log (path tok : string) (log : list event) :
  identity w log (msal_request cfg) = Ret (Some tok) ->
  snd (create_folder_by_path cfg w path log)
  = snd (for_parts cfg w (PyStr.split "/" path) (st_entry tok)
           (log ++ [EvToken (msal_request cfg) (Ret (Some tok))])%list).
Proof.
  intros Htok. rewrite (create_folder_by_path_run cfg w path tok log Htok).
  cbv zeta. unfold st_entry.
  destruct (fst (for_parts cfg w _ _ _)) as [[st|v]|e]; try reflexivity.
  destruct (create_url st); [destruct (part st)|]; reflexivity.
Qed.


End ResolverSteps.

(** *** Checking a concrete log *)

Lemma outcome_ok_sound (out : res response) :
  outcome_ok out = true -> answered_ok out.
Proof. destruct out as [r|e]; [|discriminate]. intros H. now exists r. Qed.


Lemma method_eqb_refl (m : method) : method_eqb m m = true.
Proof. now destruct m. Qed.


Lemma all_answersb_sound (log : list event) (m : method)
  (check : res response -> bool) (P : res response -> Prop) :
  (forall out, check out = true -> P out) ->
  all_answersb log m check = true ->
  forall rq out, In (EvHttp rq out) log -> req_method rq = m -> P out.
Proof.
  intros Hc Hb rq out Hin Hm. unfold all_answersb in Hb.
  rewrite forallb_forall in Hb. specialize (Hb _ Hin). cbv beta iota in Hb.
  rewrite Hm, method_eqb_refl in Hb. now apply Hc.
Qed.

Lemma lookups_ok_check (log : list event) :
  all_answersb log GET outcome_ok = true -> lookups_ok log.
Proof.
  intros H. exact (all_answersb_sound log GET outcome_ok _ outcome_ok_sound H).
Qed.

Lemma creations_ok_check (log : list event) :
  all_answersb log POST outcome_ok = true -> creations_ok log.
Proof.
  intros H. exact (all_answersb_sound log POST outcome_ok _ outcome_ok_sound H).
Qed.



Lemma create_folder_by_path_all_exist_witness :
  (exists e,
      fst (create_folder_by_path sample_cfg
             (folders_world [sample_root ++ "/x"; sample_root ++ "/x/y";
                             sample_root ++ "/x/y/z"] 201) "x/y/z" [])
      = Raise e)
  /\ (forall tok,
        identity (folders_world [sample_root ++ "/x"; sample_root ++ "/x/y";
                                 sample_root ++ "/x/y/z"] 201) []
                 (msal_request sample_cfg) = Ret (Some tok) ->
        fst (create_folder_by_path sample_cfg
               (folders_world [sample_root ++ "/x"; sample_root ++ "/x/y";
                               sample_root ++ "/x/y/z"] 201) "x/y/z" [])
        = Raise (UnboundLocalError "create_url")).
Proof.
  apply (create_folder_by_path_all_exist_raises sample_cfg).
  apply lookups_ok_check. vm_compute. reflexivity.
Defined.

(** *** Where the returned locator comes from *)

Section ReturnedLocator.

Variable cfg : config.
Variable w : world.



(** After the loop, [part] is the last element of [parts], empty or not. *)
Lemma for_parts_part (parts : list string) :
  forall (st st' : locals) (log log' : list event),
    for_parts cfg w parts st log = (Ret (Next st'), log') ->
    part st' = match parts with
               | [] => part st
               | _ => Some (last parts "")
               end.
Proof.
  induction parts as [|p rest IH]; intros st st' log log' H.
  - now inversion H.
  - assert (Hnext : forall st1 log1,
               for_parts cfg w rest st1 log1 = (Ret (Next st'), log') ->
               part st1 = Some p ->
               part st' = Some (last (p :: rest) "")).
    { intros st1 log1 H1 Hp1. rewrite (IH _ _ _ _ H1).
      destruct rest; [exact Hp1 | reflexivity]. }
    destruct (PyStr.truthy p) eqn:Hp.
    + rewrite (for_parts_step cfg w p rest st log Hp) in H.
      destruct (provider w log _) as [r|e]; [|discriminate].
      cbv zeta in H.
      destruct (in_200_201 (status_code r)); [now apply (Hnext _ _ H)|].
      destruct (provider w _ _) as [r'|e']; [|discriminate].
      destruct (in_200_201 (status_code r')); [now apply (Hnext _ _ H)|].
      destruct (json r'); discriminate.
    + destruct p; [|discriminate].
      rewrite for_parts_skip in H. now apply (Hnext _ _ H).
Qed.


End ReturnedLocator.

(** *** What [create_folder_by_path] hands back *)

(** C1, where the code departs from it.  On ["x/y/z"], every folder of the
    chain resolved:
    - all three found by lookup: no handle, [UnboundLocalError];
    - [x] created, then [y] and [z] found: the locator of a folder [z]
      directly under the root, not of [x/y/z];
    - on ["children/y"], both created: the text [":/children"] of the root
      locator followed by [/children] is rewritten as well.
    Only when the last segment is the one created last does the deepest
    folder's children locator come back (here: [x] found, [y], [z]
    created). *)
Theorem create_folder_by_path_not_deepest :
  fst (create_folder_by_path sample_cfg
         (folders_world [sample_root ++ "/x"; sample_root ++ "/x/y";
                         sample_root ++ "/x/y/z"] 201) "x/y/z" [])
  = Raise (UnboundLocalError "create_url")
  /\ fst (create_folder_by_path sample_cfg
            (folders_world [sample_root ++ "/x/y"; sample_root ++ "/x/y/z"] 201)
            "x/y/z" [])
     = Ret (VStr (children_of (spec_folder_handle sample_cfg ["z"])))
  /\ children_of (spec_folder_handle sample_cfg ["z"])
     <> children_of (spec_folder_handle sample_cfg ["x"; "y"; "z"])
  /\ fst (create_folder_by_path sample_cfg (folders_world [] 201)
            "children/y" [])
     = Ret (VStr (graph_sites sample_cfg
                    ++ "/drive/root/y:/children/y:/children"))
  /\ fst (create_folder_by_path sample_cfg
            (folders_world [sample_root ++ "/x"] 201) "x/y/z" [])
     = Ret (VStr (children_of (spec_folder_handle sample_cfg ["x"; "y"; "z"]))).
Proof. repeat split; try reflexivity. vm_compute. discriminate. Qed.

(** C2, where the code departs from it: on the empty path the loop skips
    its one empty segment and puts no request to the provider, but the
    [return] then reads [create_url], which was never assigned: the call
    raises [UnboundLocalError] instead of handing back the root handle. *)
Theorem create_folder_by_path_empty_path
  (cfg : config) (w : world) (tok : string) :
  identity w [] (msal_request cfg) = Ret (Some tok) ->
  create_folder_by_path cfg w "" []
  = (Raise (UnboundLocalError "create_url"),
     [EvToken (msal_request cfg) (Ret (Some tok))]).
Proof.
  intros Htok. rewrite (create_folder_by_path_run cfg w "" tok [] Htok).
  reflexivity.
Qed.

Lemma create_folder_by_path_empty_path_witness :
  create_folder_by_path sample_cfg (folders_world [] 201) "" []
  = (Raise (UnboundLocalError "create_url"),
     [EvToken (msal_request sample_cfg) (Ret (Some "tok"))]).
Proof.
  apply (create_folder_by_path_empty_path sample_cfg (folders_world [] 201) "tok").
  reflexivity.
Defined.

(** The upload route, called without a [path] field: the exception of the
    resolver becomes an HTTP 500, and nothing is uploaded. *)
Lemma upload_without_path_fails :
  exists msg,
    upload_file_endpoint sample_cfg (folders_world [] 201)
      (mkFlaskRequest [("file", mkFile "f.txt" "abc")] []) []
    = (Ret (VDict [("error", VStr msg)], 500),
       [EvToken (msal_request sample_cfg) (Ret (Some "tok"))]).
Proof. eexists. reflexivity. Qed.

(** *** Upload *)

Section Upload.

Variable cfg : config.
Variable w : world.

(** C6: when the provider answers the content write with 200 or 201,
    [upload_file] returns the locator [<root>/<path>/<filename>:/content],
    the very URL of the write; on any other status it returns [-1], which is
    no locator. *)
Theorem upload_file_result
  (path filename contents tok : string) (log : list event) (r : response) :
  let file_path :=
    spec_root_handle cfg ++ "/" ++ path ++ "/" ++ filename ++ ":/content" in
  let log1 := (log ++ [EvToken (msal_request cfg) (Ret (Some tok))])%list in
  let put := content_write cfg tok path filename contents in
  identity w log (msal_request cfg) = Ret (Some tok) ->
  provider w log1 put = Ret r ->
  req_url put = file_path
  /\ http_calls (snd (upload_file cfg w path filename contents log))
     = (http_calls log ++ [put])%list
  /\ (in_200_201 (status_code r) = true ->
      fst (upload_file cfg w path filename contents log) = Ret (VStr file_path))
  /\ (in_200_201 (status_code r) = false ->
      fst (upload_file cfg w path filename contents log) = Ret failure)
  /\ (forall handle, failure <> VStr handle).
Proof.
  cbv zeta. intros Htok Hput.
  assert (Hrun :
    upload_file cfg w path filename contents log
    = if in_200_201 (status_code r)
      then (Ret (VStr (spec_root_handle cfg ++ "/" ++ path ++ "/" ++ filename
                         ++ ":/content")),
            (((log ++ [EvToken (msal_request cfg) (Ret (Some tok))])
                ++ [EvHttp (content_write cfg tok path filename contents) (Ret r)])
               ++ [EvPrint [VStr ("Successfully uploaded " ++ filename)]])%list)
      else (Ret failure,
            (((log ++ [EvToken (msal_request cfg) (Ret (Some tok))])
                ++ [EvHttp (content_write cfg tok path filename contents) (Ret r)])
               ++ [EvPrint [VStr ("Failed to upload " ++ filename)]])%list)).
  { unfold upload_file. unfold bind at 1. rewrite fetch_header_run, Htok.
    cbv beta iota zeta.
    change (dict_set "Content-Type" "text/plain"
              [("Authorization", "Bearer " ++ tok)])
      with [("Authorization", "Bearer " ++ tok); ("Content-Type", "text/plain")].
    unfold bind, requests_put, send. cbv beta zeta.
    fold (spec_root_handle cfg).
    change (mkRequest PUT _ _ _)
      with (content_write cfg tok path filename contents).
    rewrite Hput. cbv beta iota.
    destruct (in_200_201 (status_code r)); reflexivity. }
  assert (Hcalls : forall l ev,
             http_calls (l ++ [ev])
             = (http_calls l
                  ++ match ev with EvHttp rq _ => [rq] | _ => [] end)%list).
  { induction l as [|x l IH]; intros ev.
    - now destruct ev.
    - simpl. rewrite IH. now destruct x. }
  repeat split.
  - rewrite Hrun.
    destruct (in_200_201 (status_code r)); cbn [snd];
      rewrite !Hcalls; now rewrite !app_nil_r.
  - intros K. now rewrite Hrun, K.
  - intros K. now rewrite Hrun, K.
  - discriminate.
Qed.

End Upload.

Lemma upload_file_result_witness :
  fst (upload_file sample_cfg (constant_world (Ret (answer 201)))
         "a/b" "report.pdf" "bytes" [])
  = Ret (VStr (sample_root ++ "/a/b/report.pdf:/content"))
  /\ fst (upload_file sample_cfg (constant_world (Ret (answer 500)))
            "a/b" "report.pdf" "bytes" [])
     = Ret failure.
Proof.
  split.
  - apply (upload_file_result sample_cfg (constant_world (Ret (answer 201)))
             "a/b" "report.pdf" "bytes" "tok" [] (answer 201));
      reflexivity.
  - apply (upload_file_result sample_cfg (constant_world (Ret (answer 500)))
             "a/b" "report.pdf" "bytes" "tok" [] (answer 500));
      reflexivity.
Defined.

(** *** Download resolution *)

Section Fetch.

Variable cfg : config.
Variable w : world.

Lemma status_200_201 (n : Z) :
  in_200_201 n = true ->
  (n =? 404) = false /\ (n =? 401) = false /\ (n =? 403) = false.
Proof.
  unfold in_200_201. intros H. apply orb_true_iff in H.
  repeat split; apply Z.eqb_neq; destruct H as [H|H]; apply Z.eqb_eq in H; lia.
Qed.

(** The run of [fetch_file] once the token is there and the provider has
    answered the metadata request with [r]. *)
Lemma fetch_file_run
  (path filename tok : string) (log : list event) (r : response) :
  let log1 := (log ++ [EvToken (msal_request cfg) (Ret (Some tok))])%list in
  let rq := metadata_request cfg tok path filename in
  let log2 := (log1 ++ [EvHttp rq (Ret r)])%list in
  let fail m := (Ret failure, (log2 ++ [EvPrint [VStr m]])%list) in
  identity w log (msal_request cfg) = Ret (Some tok) ->
  provider w log1 rq = Ret r ->
  fetch_file cfg w path filename log
  = if status_code r =? 404 then
      fail ("File not found: " ++ clean_sharepoint_path path ++ "/" ++ filename)
    else if status_code r =? 401 then
      fail "Authentication failed. Token might be expired."
    else if status_code r =? 403 then
      fail "Permission denied to access file."
    else if negb (in_200_201 (status_code r)) then
      fail ("Unexpected error " ++ PyStr.str_of_int (status_code r)
              ++ ": " ++ text r)
    else
      match json r with
      | Raise e => fail ("Error fetching file: " ++ str_exn e)
      | Ret (VDict d) =>
          let url :=
            match assoc "@microsoft.graph.downloadUrl" d with
            | Some v => v
            | None => VNone
            end in
          if truthy url then (Ret url, log2)
          else fail "Download URL not found in response"
      | Ret data =>
          fail ("Error fetching file: '" ++ type_name data
                  ++ "' object has no attribute 'get'")
      end.
Proof.
  cbv zeta. intros Htok Hget.
  unfold fetch_file, try_except. unfold bind at 1.
  rewrite fetch_header_run, Htok. cbv beta iota zeta.
  unfold bind at 1. unfold requests_get, send. cbv beta zeta.
  change (mkRequest GET _ _ _) with (metadata_request cfg tok path filename).
  rewrite Hget. cbv beta iota.
  destruct (status_code r =? 404); [reflexivity|].
  destruct (status_code r =? 401); [reflexivity|].
  destruct (status_code r =? 403); [reflexivity|].
  destruct (negb (in_200_201 (status_code r))); [reflexivity|].
  unfold bind, response_json.
  destruct (json r) as [data|e]; [|reflexivity].
  destruct data as [| | | | |d]; try reflexivity.
  cbv beta iota zeta delta [py_get ret].
  destruct (truthy _); reflexivity.
Qed.

(** Whatever goes wrong before an answer is there ends in [-1] too. *)
Lemma fetch_file_no_answer (path filename : string) (log : list event) :
  (forall tok r,
      identity w log (msal_request cfg) = Ret (Some tok) ->
      provider w (log ++ [EvToken (msal_request cfg) (Ret (Some tok))])
               (metadata_request cfg tok path filename) <> Ret r) ->
  fst (fetch_file cfg w path filename log) = Ret failure.
Proof.
  intros H. unfold fetch_file, try_except. unfold bind at 1.
  rewrite fetch_header_run.
  destruct (identity w log (msal_request cfg)) as [[tok|]|e] eqn:Htok;
    try reflexivity.
  cbv beta iota zeta. unfold bind at 1. unfold requests_get, send.
  cbv beta zeta.
  change (mkRequest GET _ _ _) with (metadata_request cfg tok path filename).
  destruct (provider w _ _) as [r|e] eqn:Hget; [|reflexivity].
  now destruct (H tok r eq_refl).
Qed.

Lemma error_of_not_found (s : string) :
  error_of_message ("File not found: " ++ s) = Some NotFound.
Proof. unfold error_of_message. now rewrite prefix_refl. Qed.

Lemma error_of_unexpected (s : string) :
  error_of_message ("Unexpected error " ++ s) = Some UnexpectedProviderError.
Proof.
  unfold error_of_message.
  change (prefix "File not found: " ("Unexpected error " ++ s)) with false.
  change (String.eqb ("Unexpected error " ++ s)
            "Authentication failed. Token might be expired.") with false.
  change (String.eqb ("Unexpected error " ++ s)
            "Permission denied to access file.") with false.
  cbv iota. now rewrite prefix_refl.
Qed.

(** C4, as the code has it: for 404, 401, 403, any other status outside 200
    and 201, and a 200/201 JSON object without a usable download URL,
    [fetch_file] returns one and the same [-1]; what tells the five cases
    apart is the line it prints, and only that:
    ['File not found: <path>/<filename>'] with the normalized path,
    ['Authentication failed. Token might be expired.'],
    ['Permission denied to access file.'],
    ['Unexpected error <status>: <body>'] and
    ['Download URL not found in response']. *)
Theorem fetch_file_failure_kinds
  (path filename tok : string) (log : list event) (r : response) :
  let log1 := (log ++ [EvToken (msal_request cfg) (Ret (Some tok))])%list in
  let rq := metadata_request cfg tok path filename in
  let fails_as (k : fetch_error) (line : string) :=
    fetch_file cfg w path filename log
    = (Ret failure, ((log1 ++ [EvHttp rq (Ret r)]) ++ [EvPrint [VStr line]])%list)
    /\ error_of_message line = Some k in
  identity w log (msal_request cfg) = Ret (Some tok) ->
  provider w log1 rq = Ret r ->
  (status_code r = 404 ->
   fails_as NotFound
     ("File not found: " ++ clean_sharepoint_path path ++ "/" ++ filename))
  /\ (status_code r = 401 ->
      fails_as AuthExpired "Authentication failed. Token might be expired.")
  /\ (status_code r = 403 ->
      fails_as PermissionDenied "Permission denied to access file.")
  /\ (status_code r <> 404 -> status_code r <> 401 -> status_code r <> 403 ->
      in_200_201 (status_code r) = false ->
      fails_as UnexpectedProviderError
        ("Unexpected error " ++ PyStr.str_of_int (status_code r) ++ ": "
           ++ text r))
  /\ (forall d,
        in_200_201 (status_code r) = true ->
        json r = Ret (VDict d) ->
        truthy (match assoc "@microsoft.graph.downloadUrl" d with
                | Some v => v
                | None => VNone
                end) = false ->
        fails_as DownloadUrlMissing "Download URL not found in response").
Proof.
  cbv zeta. intros Htok Hget.
  pose proof (fetch_file_run path filename tok log r Htok Hget) as Hrun.
  cbv zeta in Hrun.
  split; [|split; [|split; [|split]]].
  - intros K. rewrite K in Hrun. split; [exact Hrun|].
    apply error_of_not_found.
  - intros K. rewrite K in Hrun. split; [exact Hrun | reflexivity].
  - intros K. rewrite K in Hrun. split; [exact Hrun | reflexivity].
  - intros K1 K2 K3 K.
    apply Z.eqb_neq in K1, K2, K3. rewrite K1, K2, K3, K in Hrun.
    split; [exact Hrun|]. apply error_of_unexpected.
  - intros d K J T.
    destruct (status_200_201 _ K) as [K1 [K2 K3]].
    rewrite K1, K2, K3, K, J in Hrun.
    cbv beta iota zeta delta [negb] in Hrun.
    rewrite T in Hrun. split; [exact Hrun | reflexivity].
Qed.

(** C10, as the code has it: [fetch_file] always returns, whatever the
    identity provider, the HTTP client and the JSON decoder do; the value is
    [-1] or the truthy value that a decoded JSON object of the run holds
    under the download-URL key (a string when the provider put a string
    there). *)
Theorem fetch_file_total (path filename : string) (log : list event) :
  exists v,
    fst (fetch_file cfg w path filename log) = Ret v
    /\ (v = failure
        \/ (truthy v = true
            /\ exists rq r d,
                In (EvHttp rq (Ret r)) (snd (fetch_file cfg w path filename log))
                /\ json r = Ret (VDict d)
                /\ assoc "@microsoft.graph.downloadUrl" d = Some v)).
Proof.
  destruct (identity w log (msal_request cfg)) as [[tok|]|e] eqn:Htok.
  2,3: exists failure; split; [|now left];
       apply fetch_file_no_answer; intros tok r H; congruence.
  destruct (provider w (log ++ [EvToken (msal_request cfg) (Ret (Some tok))])
                     (metadata_request cfg tok path filename))
    as [r|e] eqn:Hget.
  2:{ exists failure. split; [|now left].
      apply fetch_file_no_answer. intros tok' r H.
      assert (tok' = tok) as -> by congruence. congruence. }
  rewrite (fetch_file_run path filename tok log r Htok Hget). cbv zeta.
  destruct (status_code r =? 404); [exists failure; split; [reflexivity|now left]|].
  destruct (status_code r =? 401); [exists failure; split; [reflexivity|now left]|].
  destruct (status_code r =? 403); [exists failure; split; [reflexivity|now left]|].
  destruct (negb (in_200_201 (status_code r)));
    [exists failure; split; [reflexivity|now left]|].
  destruct (json r) as [data|e] eqn:J;
    [|exists failure; split; [reflexivity|now left]].
  destruct data as [| | | | |d];
    try (exists failure; split; [reflexivity|now left]).
  destruct (assoc "@microsoft.graph.downloadUrl" d) as [v|] eqn:A;
    [|exists failure; split; [reflexivity|now left]].
  destruct (truthy v) eqn:T;
    [|exists failure; split; [reflexivity|now left]].
  exists v. split; [reflexivity|]. right. split; [exact T|].
  exists (metadata_request cfg tok path filename), r, d.
  repeat split; [|exact J|exact A].
  cbn [snd]. apply in_or_app. right. now left.
Qed.

(** C9: on [GET /fetch/<filepath>], a metadata lookup answered with 404
    gives HTTP 404 with [{"error": "Failed to fetch file"}]; a lookup
    answered with 200 or 201 and a download URL gives HTTP 200 with
    [download_url], [filename] and [path]. *)
Theorem fetch_file_endpoint_replies (filepath tok : string) (r : response) :
  let filename := snd (PyStr.rsplit1 "/" filepath) in
  let path :=
    clean_sharepoint_path
      (match fst (PyStr.rsplit1 "/" filepath) with
       | Some d => d
       | None => ""
       end) in
  identity w [] (msal_request cfg) = Ret (Some tok) ->
  provider w [EvToken (msal_request cfg) (Ret (Some tok))]
           (metadata_request cfg tok path filename) = Ret r ->
  (status_code r = 404 ->
   fst (fetch_file_endpoint cfg w filepath [])
   = Ret (VDict [("error", VStr "Failed to fetch file")], 404))
  /\ (forall d url,
        in_200_201 (status_code r) = true ->
        json r = Ret (VDict d) ->
        assoc "@microsoft.graph.downloadUrl" d = Some url ->
        truthy url = true ->
        eq_int url (-1) = false ->
        fst (fetch_file_endpoint cfg w filepath [])
        = Ret (VDict [("download_url", url);
                      ("filename", VStr filename);
                      ("path", VStr path)], 200)).
Proof.
  cbv zeta. intros Htok Hget.
  pose proof (fetch_file_run _ _ tok [] r Htok Hget) as Hrun.
  cbv zeta in Hrun.
  unfold fetch_file_endpoint, try_except, bind. cbv zeta.
  rewrite Hrun. clear Hrun.
  split.
  - intros K. rewrite K. reflexivity.
  - intros d url K J A T E.
    destruct (status_200_201 _ K) as [K1 [K2 K3]].
    rewrite K1, K2, K3, K, J. cbv beta iota zeta delta [negb].
    rewrite A, T. cbv beta iota. now rewrite E.
Qed.

End Fetch.

(** *** Instances and counterexamples for download resolution *)

Lemma fetch_file_failure_kinds_witness :
  (fetch_file sample_cfg (constant_world (Ret (answer 404)))
     "/a//b/" "report.pdf" []
   = (Ret failure,
      [EvToken (msal_request sample_cfg) (Ret (Some "tok"));
       EvHttp (metadata_request sample_cfg "tok" "/a//b/" "report.pdf")
              (Ret (answer 404));
       EvPrint [VStr "File not found: a/b/report.pdf"]])
   /\ error_of_message "File not found: a/b/report.pdf" = Some NotFound)
  /\ (fetch_file sample_cfg
        (constant_world (Ret (mkResponse 500 "Internal Server Error"
                                         (Ret (VDict [])))))
        "a/b" "report.pdf" []
      = (Ret failure,
         [EvToken (msal_request sample_cfg) (Ret (Some "tok"));
          EvHttp (metadata_request sample_cfg "tok" "a/b" "report.pdf")
                 (Ret (mkResponse 500 "Internal Server Error" (Ret (VDict []))));
          EvPrint [VStr "Unexpected error 500: Internal Server Error"]])
      /\ error_of_message "Unexpected error 500: Internal Server Error"
         = Some UnexpectedProviderError).
Proof.
  split.
  - apply (fetch_file_failure_kinds sample_cfg
             (constant_world (Ret (answer 404)))
             "/a//b/" "report.pdf" "tok" [] (answer 404) eq_refl eq_refl).
    reflexivity.
  - apply (fetch_file_failure_kinds sample_cfg
             (constant_world (Ret (mkResponse 500 "Internal Server Error"
                                              (Ret (VDict [])))))
             "a/b" "report.pdf" "tok" []
             (mkResponse 500 "Internal Server Error" (Ret (VDict [])))
             eq_refl eq_refl);
      [discriminate | discriminate | discriminate | reflexivity].
Defined.

(** C4 as stated fails: the value [fetch_file] returns on a 404 is the value
    it returns on a 500, so nothing computed from the returned value tells
    [NotFound] from [UnexpectedProviderError]. *)
Lemma fetch_file_404_500_same_value :
  ~ exists classify : res value -> fetch_error,
      classify (fst (fetch_file sample_cfg (constant_world (Ret (answer 404)))
                       "a/b" "report.pdf" []))
      = NotFound
      /\ classify (fst (fetch_file sample_cfg
                          (constant_world (Ret (answer 500)))
                          "a/b" "report.pdf" []))
         = UnexpectedProviderError.
Proof.
  intros [classify [H1 H2]].
  change (fst (fetch_file sample_cfg (constant_world (Ret (answer 404)))
                 "a/b" "report.pdf" []))
    with (@Ret value failure) in H1.
  change (fst (fetch_file sample_cfg (constant_world (Ret (answer 500)))
                 "a/b" "report.pdf" []))
    with (@Ret value failure) in H2.
  congruence.
Qed.

(** C10 as stated fails: a provider that puts a number under the
    download-URL key gets that number back from [fetch_file]: neither a
    string nor [-1]. *)
Lemma fetch_file_returns_non_string :
  ~ (fst (fetch_file sample_cfg (constant_world (Ret (metadata_body (VInt 5))))
            "a/b" "report.pdf" [])
     = Ret failure
     \/ exists url : string,
         fst (fetch_file sample_cfg
                (constant_world (Ret (metadata_body (VInt 5))))
                "a/b" "report.pdf" [])
         = Ret (VStr url)).
Proof.
  change (fst (fetch_file sample_cfg
                 (constant_world (Ret (metadata_body (VInt 5))))
                 "a/b" "report.pdf" []))
    with (Ret (VInt 5)).
  intros [H|[url H]]; discriminate.
Qed.

Lemma fetch_file_endpoint_replies_witness :
  fst (fetch_file_endpoint sample_cfg (constant_world (Ret (answer 404)))
         "a/b/report.pdf" [])
  = Ret (VDict [("error", VStr "Failed to fetch file")], 404)
  /\ fst (fetch_file_endpoint sample_cfg
            (constant_world (Ret (metadata_body (VStr "https://dl/x"))))
            "a/b/report.pdf" [])
     = Ret (VDict [("download_url", VStr "https://dl/x");
                   ("filename", VStr "report.pdf");
                   ("path", VStr "a/b")], 200).
Proof.
  split.
  - apply (fetch_file_endpoint_replies sample_cfg
             (constant_world (Ret (answer 404)))
             "a/b/report.pdf" "tok" (answer 404) eq_refl eq_refl).
    reflexivity.
  - apply (proj2 (fetch_file_endpoint_replies sample_cfg
             (constant_world (Ret (metadata_body (VStr "https://dl/x"))))
             "a/b/report.pdf" "tok" (metadata_body (VStr "https://dl/x"))
             eq_refl eq_refl)
             [("name", VStr "report.pdf");
              ("@microsoft.graph.downloadUrl", VStr "https://dl/x")]
             (VStr "https://dl/x"));
      reflexivity.
Defined.

(** *** Further runs, evaluated *)

(** Without a token [fetch_file] catches the [KeyError] and returns [-1];
    [create_folder_by_path] lets it through. *)
Example runs_without_token :
  fst (fetch_file sample_cfg tokenless_world "a/b" "report.pdf" [])
  = Ret failure
  /\ printed (snd (fetch_file sample_cfg tokenless_world "a/b" "report.pdf" []))
     = [[VStr "Error fetching file: 'access_token'"]]
  /\ fst (create_folder_by_path sample_cfg tokenless_world "x/y/z" [])
     = Raise (KeyError "access_token").
Proof. repeat split. Qed.

(** When the provider refuses the creation of [y], the chain is given up:
    two lookups, one creation, [-1]; [z] is never looked up and the
    folders found or made so far stay as they are. *)
Example resolver_stops_when_creation_refused :
  fst (create_folder_by_path sample_cfg
         (folders_world [sample_root ++ "/x"] 500) "x/y/z" [])
  = Ret failure
  /\ map summary
       (http_calls
          (snd (create_folder_by_path sample_cfg
                  (folders_world [sample_root ++ "/x"] 500) "x/y/z" [])))
     = [ (GET, sample_root ++ "/x", NoBody);
         (GET, sample_root ++ "/x/y", NoBody);
         (POST, sample_root ++ "/x:/children", JsonBody (folder_data "y")) ].
Proof. split; reflexivity. Qed.

(** The routes end to end on the sample provider: an upload into a fresh
    chain "x/y" succeeds with 201; the same upload into an existing chain
    ends in 500. *)
Example upload_routes :
  fst (upload_file_endpoint sample_cfg (folders_world [] 201)
         (mkFlaskRequest [("file", mkFile "f.txt" "abc")] [("path", "/x//y/")])
         [])
  = Ret (VDict [("message", VStr "File uploaded successfully");
                ("path", VStr (sample_root ++ "/x/y/f.txt:/content"))], 201)
  /\ (exists msg,
         fst (upload_file_endpoint sample_cfg
                (folders_world [sample_root ++ "/x"; sample_root ++ "/x/y"] 201)
                (mkFlaskRequest [("file", mkFile "f.txt" "abc")]
                                [("path", "/x//y/")]) [])
         = Ret (VDict [("error", VStr msg)], 500))
  /\ fst (upload_file_endpoint sample_cfg (folders_world [] 201)
            (mkFlaskRequest [] [("path", "x")]) [])
     = Ret (VDict [("error", VStr "No file provided")], 400).
Proof. repeat split. eexists. reflexivity. Qed.

(** * Further properties of the code *)

(** ** The normalizer, beyond its contract *)

Section NormalizerFacts.

Variable c : ascii.

Lemma filter_none_app (l1 l2 : list string) :
  PyStr.filter_none (l1 ++ l2)
  = (PyStr.filter_none l1 ++ PyStr.filter_none l2)%list.
Proof. apply filter_app. Qed.

Lemma filter_none_empties (k : nat) : PyStr.filter_none (repeat "" k) = [].
Proof. induction k as [|k IH]; [reflexivity | exact IH]. Qed.

(** Leading separators only add empty segments in front. *)
Lemma filter_split_lstrip (s : string) :
  PyStr.filter_none (PyStr.split c (PyStr.lstrip c s))
  = PyStr.filter_none (PyStr.split c s).
Proof.
  induction s as [|a s IH]; [reflexivity|].
  simpl. destruct (Ascii.eqb a c) eqn:E; [exact IH|].
  simpl. now rewrite E.
Qed.

(** Trailing separators only add empty segments at the end. *)
Lemma split_rstrip (s : string) :
  exists k,
    PyStr.split c s
    = (PyStr.split c (PyStr.rstrip c s) ++ repeat "" k)%list.
Proof.
  induction s as [|a s [k IH]]; [now exists 0%nat|].
  change (PyStr.rstrip c (String a s))
    with (match PyStr.rstrip c s with
          | EmptyString =>
              if Ascii.eqb a c then EmptyString else String a EmptyString
          | r => String a r
          end).
  destruct (PyStr.rstrip c s) as [|b r] eqn:R.
  - simpl in IH. simpl. rewrite IH.
    destruct (Ascii.eqb a c) eqn:E.
    + now exists (S k).
    + exists k. simpl. now rewrite E.
  - exists k. remember (String b r) as x eqn:X.
    assert (Hx : PyStr.split c (String a x)
                 = if Ascii.eqb a c then "" :: PyStr.split c x
                   else match PyStr.split c x with
                        | h :: t => String a h :: t
                        | [] => [String a ""]
                        end) by reflexivity.
    assert (Hs : PyStr.split c (String a s)
                 = if Ascii.eqb a c then "" :: PyStr.split c s
                   else match PyStr.split c s with
                        | h :: t => String a h :: t
                        | [] => [String a ""]
                        end) by reflexivity.
    rewrite Hx, Hs, IH.
    destruct (Ascii.eqb a c); [reflexivity|].
    destruct (PyStr.split c x) as [|h t] eqn:S;
      [now destruct (split_not_nil c x)|].
    reflexivity.
Qed.

Lemma filter_split_rstrip (s : string) :
  PyStr.filter_none (PyStr.split c (PyStr.rstrip c s))
  = PyStr.filter_none (PyStr.split c s).
Proof.
  destruct (split_rstrip s) as [k H]. rewrite H, filter_none_app.
  now rewrite filter_none_empties, app_nil_r.
Qed.

Lemma filter_split_strip (s : string) :
  PyStr.filter_none (PyStr.split c (PyStr.strip c s))
  = PyStr.filter_none (PyStr.split c s).
Proof.
  unfold PyStr.strip. now rewrite filter_split_rstrip, filter_split_lstrip.
Qed.

End NormalizerFacts.

(** A text that does not hold the first character of the pattern is left
    alone by [replace]. *)
Lemma replace_without_first_char (a : ascii) (t new s : string) :
  PyStr.occurs a s = false -> PyStr.replace (String a t) new s = s.
Proof.
  unfold PyStr.replace. induction s as [|x s IH]; intros H; [reflexivity|].
  apply occurs_cons_false in H as [E H].
  change (PyStr.replace_from (String a t) new 0 (String x s))
    with (if prefix (String a t) (String x s)
          then new ++ PyStr.replace_from (String a t) new
                        (Nat.pred (String.length (String a t))) s
          else String x (PyStr.replace_from (String a t) new 0 s)).
  replace (prefix (String a t) (String x s)) with false.
  - now rewrite IH.
  - simpl. destruct (ascii_dec a x) as [->|]; [|reflexivity].
    now rewrite Ascii.eqb_refl in E.
Qed.

(** *** Separators at the ends of the input *)

Lemma prefix_snoc (c : ascii) (p s : string) :
  PyStr.ends_with_char c p = false ->
  prefix p (s ++ String c "") = prefix p s.
Proof.
  revert s. induction p as [|x p IH]; intros s H.
  - now destruct s.
  - destruct s as [|y s].
    + simpl. destruct (ascii_dec x c) as [->|]; [|reflexivity].
      destruct p; [|reflexivity].
      simpl in H. now rewrite Ascii.eqb_refl in H.
    + change (prefix (String x p) (String y s ++ String c ""))
        with (if ascii_dec x y then prefix p (s ++ String c "") else false).
      change (prefix (String x p) (String y s))
        with (if ascii_dec x y then prefix p s else false).
      destruct (ascii_dec x y); [|reflexivity].
      destruct p as [|z p]; [now destruct s|].
      apply IH. exact H.
Qed.

Lemma replace_from_app_char (c a : ascii) (t new q : string) (skip : nat) :
  PyStr.ends_with_char c (String a t) = false ->
  (skip <= String.length q)%nat ->
  PyStr.replace_from (String a t) new skip (q ++ String c "")
  = PyStr.replace_from (String a t) new skip q ++ String c "".
Proof.
  intros Hc. revert skip. induction q as [|x q IH]; intros skip H.
  - simpl in H. assert (skip = 0)%nat as -> by lia.
    change ("" ++ String c "") with (String c "").
    change (PyStr.replace_from (String a t) new 0 (String c ""))
      with (if prefix (String a t) (String c "")
            then new ++ PyStr.replace_from (String a t) new
                          (Nat.pred (String.length (String a t))) ""
            else String c (PyStr.replace_from (String a t) new 0 "")).
    change (String c "") with ("" ++ String c "") at 1.
    rewrite (prefix_snoc c (String a t) "" Hc). reflexivity.
  - destruct skip as [|k].
    + change (PyStr.replace_from (String a t) new 0 (String x q ++ String c ""))
        with (if prefix (String a t) (String x q ++ String c "")
              then new ++ PyStr.replace_from (String a t) new
                            (Nat.pred (String.length (String a t)))
                            (q ++ String c "")
              else String x (PyStr.replace_from (String a t) new 0
                               (q ++ String c ""))).
      rewrite (prefix_snoc c (String a t) (String x q) Hc).
      change (PyStr.replace_from (String a t) new 0 (String x q))
        with (if prefix (String a t) (String x q)
              then new ++ PyStr.replace_from (String a t) new
                            (Nat.pred (String.length (String a t))) q
              else String x (PyStr.replace_from (String a t) new 0 q)).
      destruct (prefix (String a t) (String x q)) eqn:E.
      * apply prefix_length in E. simpl in E.
        rewrite IH by (simpl; lia). now rewrite append_assoc.
      * rewrite IH by lia. reflexivity.
    + simpl in H. simpl. apply IH. lia.
Qed.

Lemma replace_cons_other (a x : ascii) (t new s : string) :
  a <> x ->
  PyStr.replace (String a t) new (String x s)
  = String x (PyStr.replace (String a t) new s).
Proof.
  intros H. unfold PyStr.replace.
  change (PyStr.replace_from (String a t) new 0 (String x s))
    with (if prefix (String a t) (String x s)
          then new ++ PyStr.replace_from (String a t) new
                        (Nat.pred (String.length (String a t))) s
          else String x (PyStr.replace_from (String a t) new 0 s)).
  replace (prefix (String a t) (String x s)) with false; [reflexivity|].
  simpl. now destruct (ascii_dec a x).
Qed.

Lemma split_snoc_sep (c : ascii) (s : string) :
  PyStr.split c (s ++ String c "") = (PyStr.split c s ++ [""])%list.
Proof.
  induction s as [|a s IH].
  - simpl. now rewrite Ascii.eqb_refl.
  - change (PyStr.split c (String a s ++ String c ""))
      with (if Ascii.eqb a c then "" :: PyStr.split c (s ++ String c "")
            else match PyStr.split c (s ++ String c "") with
                 | h :: t => String a h :: t
                 | [] => [String a ""]
                 end).
    change (PyStr.split c (String a s))
      with (if Ascii.eqb a c then "" :: PyStr.split c s
            else match PyStr.split c s with
                 | h :: t => String a h :: t
                 | [] => [String a ""]
                 end).
    rewrite IH. destruct (Ascii.eqb a c); [reflexivity|].
    destruct (PyStr.split c s) as [|h t] eqn:S;
      [now destruct (split_not_nil c s) | reflexivity].
Qed.

(** The result, in terms of the input: the non-empty segments of the path
    without its [":/content"], in their order. *)
Lemma clean_segments (p : string) :
  clean_sharepoint_path p
  = PyStr.join "/"
      (PyStr.filter_none (PyStr.split "/" (PyStr.replace ":/content" "" p))).
Proof. unfold clean_sharepoint_path. now rewrite filter_split_strip. Qed.

Lemma clean_leading_separator (p : string) :
  clean_sharepoint_path (String "/" p) = clean_sharepoint_path p.
Proof.
  rewrite !clean_segments.
  rewrite (replace_cons_other ":" "/" "/content" "" p) by discriminate.
  reflexivity.
Qed.

Lemma clean_trailing_separator (p : string) :
  clean_sharepoint_path (p ++ "/") = clean_sharepoint_path p.
Proof.
  rewrite !clean_segments. unfold PyStr.replace.
  rewrite (replace_from_app_char "/" ":" "/content" "" p 0 eq_refl)
    by lia.
  rewrite split_snoc_sep, filter_none_app. simpl (PyStr.filter_none [""]).
  now rewrite app_nil_r.
Qed.

(** C8: [clean_sharepoint_path] is a total function on strings and does
    what its three steps say, of the input:
    - a trailing [":/content"] is stripped: with or without it the result
      is the same;
    - a leading and a trailing separator are stripped: with or without
      them the result is the same;
    - empty segments are discarded and nothing else is: the result is the
      non-empty segments of the path without its [":/content"], in their
      order, joined by single separators (for a path without a colon: the
      non-empty segments of the path itself);
    so the result has no leading or trailing separator and no empty
    segment; and [normalize("") == ""], [normalize("/a//b/") == "a/b"],
    [normalize("a/b/:/content") == "a/b"]. *)
Theorem clean_sharepoint_path_contract :
  (forall p, exists c, clean_sharepoint_path p = c /\ canonical_path c)
  /\ (forall q,
        clean_sharepoint_path (q ++ ":/content") = clean_sharepoint_path q)
  /\ (forall p, clean_sharepoint_path ("/" ++ p) = clean_sharepoint_path p)
  /\ (forall p, clean_sharepoint_path (p ++ "/") = clean_sharepoint_path p)
  /\ (forall p,
        clean_sharepoint_path p
        = PyStr.join "/"
            (PyStr.filter_none
               (PyStr.split "/" (PyStr.replace ":/content" "" p))))
  /\ (forall p,
        PyStr.occurs ":" p = true
        \/ clean_sharepoint_path p
           = PyStr.join "/" (PyStr.filter_none (PyStr.split "/" p)))
  /\ (forall p, PyStr.strip "/" (clean_sharepoint_path p)
                = clean_sharepoint_path p)
  /\ (forall p, clean_sharepoint_path p = ""
                \/ Forall (fun seg => seg <> "")
                          (PyStr.split "/" (clean_sharepoint_path p)))
  /\ clean_sharepoint_path "" = ""
  /\ clean_sharepoint_path "/a//b/" = "a/b"
  /\ clean_sharepoint_path "a/b/:/content" = "a/b".
Proof.
  split; [|split; [|split; [|split; [|split; [|split; [|split; [|split]]]]]]].
  - intros p. exists (clean_sharepoint_path p).
    split; [reflexivity | apply clean_canonical].
  - intros q. unfold clean_sharepoint_path.
    rewrite (replace_app_old ":" "/content" eq_refl "" q).
    now rewrite append_empty_r.
  - intros p. apply clean_leading_separator.
  - intros p. apply clean_trailing_separator.
  - intros p. apply clean_segments.
  - intros p. destruct (PyStr.occurs ":" p) eqn:E; [now left|]. right.
    rewrite clean_segments.
    now rewrite (replace_without_first_char ":" "/content" "" p E).
  - intros p. apply canonical_strip, clean_canonical.
  - intros p. destruct (string_dec (clean_sharepoint_path p) "") as [E|E].
    + now left.
    + right. apply canonical_split; [apply clean_canonical | exact E].
  - repeat split.
Qed.

Lemma occurs_app (a : ascii) (x y : string) :
  PyStr.occurs a (x ++ y) = PyStr.occurs a x || PyStr.occurs a y.
Proof.
  induction x as [|b x IH]; [reflexivity|].
  simpl. now rewrite IH, orb_assoc.
Qed.

Lemma split_keeps_absent (a c : ascii) (s : string) :
  PyStr.occurs a s = false ->
  Forall (fun x => PyStr.occurs a x = false) (PyStr.split c s).
Proof.
  induction s as [|b s IH]; intros H; [now repeat constructor|].
  apply occurs_cons_false in H as [E H]. specialize (IH H).
  simpl. destruct (Ascii.eqb b c).
  - now constructor.
  - destruct (PyStr.split c s) as [|h t]; [now repeat constructor; simpl; rewrite E|].
    inversion IH; subst. constructor; [|assumption].
    simpl. now rewrite E.
Qed.

Lemma join_keeps_absent (a c : ascii) (l : list string) :
  Ascii.eqb c a = false ->
  Forall (fun x => PyStr.occurs a x = false) l ->
  PyStr.occurs a (PyStr.join (String c "") l) = false.
Proof.
  intros Hc. unfold PyStr.join.
  induction 1 as [|x l Hx Hl IH]; [reflexivity|].
  destruct l as [|y l]; [exact Hx|].
  change (String.concat (String c "") (x :: y :: l))
    with (x ++ String c (String.concat (String c "") (y :: l))).
  rewrite occurs_app, Hx.
  change (PyStr.occurs a (String c (String.concat (String c "") (y :: l))))
    with (Ascii.eqb c a
          || PyStr.occurs a (String.concat (String c "") (y :: l))).
  now rewrite Hc, IH.
Qed.

Lemma filter_none_keeps (P : string -> Prop) (l : list string) :
  Forall P l -> Forall P (PyStr.filter_none l).
Proof.
  unfold PyStr.filter_none.
  induction 1 as [|x l Hx Hl IH]; simpl; [constructor|].
  destruct (PyStr.truthy x); [constructor|]; assumption.
Qed.

(** X1: A path without a colon normalizes to its non-empty segments, in their
    order, joined by single separators. *)
Theorem clean_without_colon (p : string) :
  PyStr.occurs ":" p = false ->
  clean_sharepoint_path p
  = PyStr.join "/" (PyStr.filter_none (PyStr.split "/" p)).
Proof.
  intros H. unfold clean_sharepoint_path.
  rewrite (replace_without_first_char ":" "/content" "" p H).
  now rewrite filter_split_strip.
Qed.

Lemma clean_without_colon_witness :
  clean_sharepoint_path "//docs///2024/q1/"
  = PyStr.join "/" (PyStr.filter_none (PyStr.split "/" "//docs///2024/q1/")).
Proof. apply (clean_without_colon "//docs///2024/q1/"). reflexivity. Defined.

Lemma clean_keeps_absent (a : ascii) (p : string) :
  PyStr.occurs ":" p = false ->
  PyStr.occurs a p = false ->
  Ascii.eqb "/" a = false ->
  PyStr.occurs a (clean_sharepoint_path p) = false.
Proof.
  intros Hp Ha Hs. unfold clean_sharepoint_path.
  rewrite (replace_without_first_char ":" "/content" "" p Hp).
  rewrite filter_split_strip.
  apply join_keeps_absent; [exact Hs|].
  apply filter_none_keeps. now apply split_keeps_absent.
Qed.

(** X2: On paths without a colon the normalizer is idempotent. *)
Theorem clean_idempotent_without_colon (p : string) :
  PyStr.occurs ":" p = false ->
  clean_sharepoint_path (clean_sharepoint_path p) = clean_sharepoint_path p.
Proof.
  intros H. apply clean_fixed; [apply clean_canonical|].
  apply replace_without_first_char.
  now apply clean_keeps_absent.
Qed.

Lemma clean_idempotent_without_colon_witness :
  clean_sharepoint_path (clean_sharepoint_path "/a//b/")
  = clean_sharepoint_path "/a//b/".
Proof. apply (clean_idempotent_without_colon "/a//b/"). reflexivity. Defined.

(** X3: Among the paths that hold no [":/content"], the normalizer leaves
    exactly the canonical ones as they are. *)
Theorem clean_fixed_points (s : string) :
  PyStr.replace ":/content" "" s = s ->
  (clean_sharepoint_path s = s <-> canonical_path s).
Proof.
  intros H. split.
  - intros E. rewrite <- E. apply clean_canonical.
  - intros C. now apply clean_fixed.
Qed.

Lemma clean_fixed_points_witness :
  clean_sharepoint_path "docs/2024" = "docs/2024" <-> canonical_path "docs/2024".
Proof. apply (clean_fixed_points "docs/2024"). reflexivity. Defined.

(** ** The resolver, on every path *)

Section ResolverFacts.

Variable cfg : config.
Variable w : world.

Lemma http_calls_snoc (log : list event) (ev : event) :
  http_calls (log ++ [ev])
  = (http_calls log
       ++ match ev with EvHttp rq _ => [rq] | _ => [] end)%list.
Proof.
  induction log as [|x log IH]; [now destruct ev|].
  simpl. rewrite IH. now destruct x.
Qed.

Lemma token_requests_snoc (log : list event) (ev : event) :
  token_requests (log ++ [ev])
  = (token_requests log
       ++ match ev with EvToken rq _ => [rq] | _ => [] end)%list.
Proof.
  induction log as [|x log IH]; [now destruct ev|].
  simpl. rewrite IH. now destruct x.
Qed.

Lemma get_urls_snoc (log : list event) (ev : event) :
  get_urls (log ++ [ev])
  = (get_urls log
       ++ match ev with
          | EvHttp rq _ =>
              match req_method rq with GET => [req_url rq] | _ => [] end
          | _ => []
          end)%list.
Proof.
  unfold get_urls. rewrite http_calls_snoc, filter_app, map_app.
  destruct ev as [| rq out |]; try reflexivity.
  simpl. now destruct (req_method rq).
Qed.

(** A property of the log and the header that every iteration keeps is
    kept by the loop.  [P] speaks of the log, [Q] of the header. *)
Lemma for_parts_invariant
  (P : list event -> Prop) (Q : headers -> Prop) :
  (forall log args, P log -> P (log ++ [EvPrint args])%list) ->
  (forall log rq out, P log -> Q (req_headers rq) ->
                      P (log ++ [EvHttp rq out])%list) ->
  (forall h, Q h -> Q (dict_set "Content-Type" "application/json" h)) ->
  forall (parts : list string) (st : locals) (log : list event),
    P log -> Q (header st) ->
    P (snd (for_parts cfg w parts st log)).
Proof.
  intros Hprint Hhttp Hset.
  induction parts as [|p rest IH]; intros st log HP HQ; [exact HP|].
  destruct (PyStr.truthy p) eqn:Hp.
  - rewrite (for_parts_step cfg w p rest st log Hp).
    assert (HL : P (log ++ [EvHttp (lookup cfg p st)
                              (provider w log (lookup cfg p st))])%list).
    { now apply Hhttp. }
    destruct (provider w log (lookup cfg p st)) as [r|e]; [|exact HL].
    cbv zeta.
    destruct (in_200_201 (status_code r)).
    + apply IH; [now apply Hprint | exact HQ].
    + match goal with
      | |- context [provider w ?l (creation cfg p st)] =>
          assert (HC : P (l ++ [EvHttp (creation cfg p st)
                                  (provider w l (creation cfg p st))])%list)
            by (apply Hhttp; [exact HL | now apply Hset]);
          destruct (provider w l (creation cfg p st)) as [r'|e'];
            [|exact HC]
      end.
      destruct (in_200_201 (status_code r')).
      * apply IH; [now apply Hprint | now apply Hset].
      * destruct (json r'); [now apply Hprint | exact HC].
  - destruct p; [|discriminate].
    rewrite for_parts_skip. now apply IH.
Qed.

End ResolverFacts.

(** ** Every request is authenticated *)

Section Authentication.

Variable cfg : config.
Variable w : world.

(** [upload_file], by what the identity provider and the provider do. *)
Lemma upload_file_cases (path filename contents : string) (log : list event) :
  upload_file cfg w path filename contents log
  = match identity w log (msal_request cfg) with
    | Ret (Some tok) =>
        let log1 := (log ++ [EvToken (msal_request cfg) (Ret (Some tok))])%list in
        let put := content_write cfg tok path filename contents in
        match provider w log1 put with
        | Ret r =>
            let log2 := (log1 ++ [EvHttp put (Ret r)])%list in
            if in_200_201 (status_code r) then
              (Ret (VStr (req_url put)),
               (log2 ++ [EvPrint [VStr ("Successfully uploaded " ++ filename)]])%list)
            else
              (Ret failure,
               (log2 ++ [EvPrint [VStr ("Failed to upload " ++ filename)]])%list)
        | Raise e => (Raise e, (log1 ++ [EvHttp put (Raise e)])%list)
        end
    | Ret None =>
        (Raise (KeyError "access_token"),
         (log ++ [EvToken (msal_request cfg) (Ret None)])%list)
    | Raise e =>
        (Raise e, (log ++ [EvToken (msal_request cfg) (Raise e)])%list)
    end.
Proof.
  unfold upload_file. unfold bind at 1. rewrite fetch_header_run.
  destruct (identity w log (msal_request cfg)) as [[tok|]|e];
    try reflexivity.
  cbv beta iota zeta.
  change (dict_set "Content-Type" "text/plain"
            [("Authorization", "Bearer " ++ tok)])
    with [("Authorization", "Bearer " ++ tok); ("Content-Type", "text/plain")].
  unfold bind, requests_put, send. cbv beta zeta.
  change (mkRequest PUT _ _ _)
    with (content_write cfg tok path filename contents).
  destruct (provider w _ _) as [r|e]; [|reflexivity].
  cbv beta iota.
  destruct (in_200_201 (status_code r)); reflexivity.
Qed.

(** [fetch_file] when no answer to the metadata request comes back. *)
Lemma fetch_file_cases (path filename : string) (log : list event) :
  fetch_file cfg w path filename log
  = match identity w log (msal_request cfg) with
    | Ret (Some tok) =>
        let log1 := (log ++ [EvToken (msal_request cfg) (Ret (Some tok))])%list in
        let rq := metadata_request cfg tok path filename in
        match provider w log1 rq with
        | Ret r => fetch_file cfg w path filename log
        | Raise e =>
            (Ret failure,
             ((log1 ++ [EvHttp rq (Raise e)])
                ++ [EvPrint [VStr ("Error fetching file: " ++ str_exn e)]])%list)
        end
    | Ret None =>
        (Ret failure,
         ((log ++ [EvToken (msal_request cfg) (Ret None)])
            ++ [EvPrint [VStr "Error fetching file: 'access_token'"]])%list)
    | Raise e =>
        (Ret failure,
         ((log ++ [EvToken (msal_request cfg) (Raise e)])
            ++ [EvPrint [VStr ("Error fetching file: " ++ str_exn e)]])%list)
    end.
Proof.
  destruct (identity w log (msal_request cfg)) as [[tok|]|e] eqn:Htok.
  - cbv zeta.
    destruct (provider w _ (metadata_request cfg tok path filename))
      as [r|e] eqn:Hget; [reflexivity|].
    unfold fetch_file, try_except. unfold bind at 1.
    rewrite fetch_header_run, Htok. cbv beta iota zeta.
    unfold bind at 1. unfold requests_get, send. cbv beta zeta.
    change (mkRequest GET _ _ _) with (metadata_request cfg tok path filename).
    now rewrite Hget.
  - unfold fetch_file, try_except. unfold bind at 1.
    now rewrite fetch_header_run, Htok.
  - unfold fetch_file, try_except. unfold bind at 1.
    now rewrite fetch_header_run, Htok.
Qed.

Lemma assoc_dict_set_other (k k' v : string) (h : headers) :
  String.eqb k k' = false ->
  assoc k' (dict_set k v h) = assoc k' h.
Proof.
  intros Hk. induction h as [|[k0 v0] h IH]; simpl.
  - rewrite Hk. reflexivity.
  - destruct (String.eqb k0 k) eqn:E0.
    + apply String.eqb_eq in E0. subst k0. simpl. now rewrite Hk.
    + simpl. destruct (String.eqb k0 k'); [reflexivity | exact IH].
Qed.

Lemma in_http_calls_snoc (log : list event) (ev : event) (rq : request) :
  In rq (http_calls (log ++ [ev])) ->
  In rq (http_calls log) \/ exists out, ev = EvHttp rq out.
Proof.
  rewrite http_calls_snoc. intros H. apply in_app_or in H as [H|H];
    [now left|].
  destruct ev as [|rq' out|]; try contradiction.
  destruct H as [->|[]]. right. now exists out.
Qed.

(** X4: Each of the three operations asks the identity provider once, and puts
    no request to the provider that does not carry the bearer token it was
    given: without a token, nothing is requested at all. *)
Theorem requests_are_authenticated :
  (forall path,
      authenticated_run cfg w (snd (create_folder_by_path cfg w path [])))
  /\ (forall path filename contents,
         authenticated_run cfg w
           (snd (upload_file cfg w path filename contents [])))
  /\ (forall path filename,
         authenticated_run cfg w (snd (fetch_file cfg w path filename []))).
Proof.
  repeat split.
  - (* create_folder_by_path: one token request *)
    destruct (identity w [] (msal_request cfg)) as [[tok|]|e] eqn:Htok.
    + rewrite (create_folder_by_path_log cfg w path tok [] Htok).
      apply (for_parts_invariant cfg w
               (fun log => token_requests log = [msal_request cfg])
               (fun _ => True)); auto.
      * intros log args H. now rewrite token_requests_snoc, H.
      * intros log rq out H _. now rewrite token_requests_snoc, H.
    + unfold create_folder_by_path, bind.
      now rewrite fetch_header_run, Htok.
    + unfold create_folder_by_path, bind.
      now rewrite fetch_header_run, Htok.
  - (* create_folder_by_path: the bearer token *)
    destruct (identity w [] (msal_request cfg)) as [[tok|]|e] eqn:Htok.
    + rewrite (create_folder_by_path_log cfg w path tok [] Htok).
      intros rq Hin. exists tok. split; [reflexivity|]. revert rq Hin.
      apply (for_parts_invariant cfg w
               (fun log => forall rq, In rq (http_calls log) ->
                                      carries_bearer tok rq)
               (fun h => assoc "Authorization" h = Some ("Bearer " ++ tok))).
      * intros log args H rq Hin.
        apply in_http_calls_snoc in Hin as [Hin|[out Hin]];
          [now apply H | discriminate].
      * intros log rq out H HQ rq' Hin.
        apply in_http_calls_snoc in Hin as [Hin|[out' Hin]];
          [now apply H|].
        inversion Hin; subst. exact HQ.
      * intros h HQ. now rewrite assoc_dict_set_other.
      * intros rq [].
      * reflexivity.
    + unfold create_folder_by_path, bind.
      rewrite fetch_header_run, Htok. intros rq [].
    + unfold create_folder_by_path, bind.
      rewrite fetch_header_run, Htok. intros rq [].
  - rewrite upload_file_cases.
    destruct (identity w [] (msal_request cfg)) as [[tok|]|e];
      try reflexivity.
    cbv zeta. destruct (provider w _ _) as [r|e]; [|reflexivity].
    destruct (in_200_201 (status_code r)); reflexivity.
  - rewrite upload_file_cases.
    destruct (identity w [] (msal_request cfg)) as [[tok|]|e] eqn:Htok;
      try (intros rq []).
    cbv zeta. intros rq Hin. exists tok. split; [reflexivity|].
    destruct (provider w _ _) as [r|e];
      [destruct (in_200_201 (status_code r))|];
      cbn [snd http_calls app] in Hin;
      destruct Hin as [<-|[]]; reflexivity.
  - rewrite fetch_file_cases.
    destruct (identity w [] (msal_request cfg)) as [[tok|]|e] eqn:Htok;
      try reflexivity.
    cbv zeta.
    destruct (provider w _ (metadata_request cfg tok path filename))
      as [r|e] eqn:Hget; [|reflexivity].
    rewrite (fetch_file_run cfg w path filename tok [] r Htok Hget).
    cbv zeta.
    repeat match goal with
           | |- context [if ?b then _ else _] => destruct b
           end; try reflexivity.
    destruct (json r) as [[| | | | |d]|e]; try reflexivity.
    destruct (truthy _); reflexivity.
  - rewrite fetch_file_cases.
    destruct (identity w [] (msal_request cfg)) as [[tok|]|e] eqn:Htok;
      try (intros rq []).
    cbv zeta. intros rq Hin. exists tok. split; [reflexivity|].
    destruct (provider w _ (metadata_request cfg tok path filename))
      as [r|e] eqn:Hget.
    + rewrite (fetch_file_run cfg w path filename tok [] r Htok Hget) in Hin.
      cbv zeta in Hin.
      assert (Hall : In rq [metadata_request cfg tok path filename]).
      { repeat match type of Hin with
               | context [if ?b then _ else _] => destruct b
               end; try exact Hin.
        destruct (json r) as [[| | | | |d]|e]; try exact Hin.
        destruct (truthy _); exact Hin. }
      destruct Hall as [<-|[]]. reflexivity.
    + cbn [snd http_calls app] in Hin. destruct Hin as [<-|[]]. reflexivity.
Qed.

End Authentication.

(** ** The requests of the resolver *)

Section ResolverRequests.

Variable cfg : config.
Variable w : world.

(** The loop leaves the function early only with [-1]. *)
Lemma for_parts_return (parts : list string) :
  forall (st : locals) (log : list event) (v : value),
    fst (for_parts cfg w parts st log) = Ret (Return v) -> v = failure.
Proof.
  induction parts as [|p rest IH]; intros st log v H; [discriminate|].
  destruct (PyStr.truthy p) eqn:Hp.
  - rewrite (for_parts_step cfg w p rest st log Hp) in H.
    destruct (provider w log _) as [r|e]; [|discriminate].
    cbv zeta in H.
    destruct (in_200_201 (status_code r)); [now apply (IH _ _ _ H)|].
    destruct (provider w _ _) as [r'|e']; [|discriminate].
    destruct (in_200_201 (status_code r')); [now apply (IH _ _ _ H)|].
    destruct (json r'); [|discriminate]. now inversion H.
  - destruct p; [|discriminate].
    rewrite for_parts_skip in H. now apply (IH _ _ _ H).
Qed.

(** A loop that runs to its end has looked up each non-empty segment once,
    in order, each under the segments before it. *)
Lemma for_parts_lookups (parts : list string) :
  forall (st st' : locals) (log log' : list event),
    for_parts cfg w parts st log = (Ret (Next st'), log') ->
    get_urls log'
    = (get_urls log
         ++ lookup_urls (graph_sites cfg) (current_path st)
              (PyStr.filter_none parts))%list.
Proof.
  induction parts as [|p rest IH]; intros st st' log log' H.
  - inversion H; subst. simpl. now rewrite app_nil_r.
  - destruct (PyStr.truthy p) eqn:Hp.
    + rewrite (for_parts_step cfg w p rest st log Hp) in H.
      unfold PyStr.filter_none. simpl filter. rewrite Hp.
      fold (PyStr.filter_none rest). simpl lookup_urls.
      destruct (provider w log _) as [r|e]; [|discriminate].
      cbv zeta in H.
      destruct (in_200_201 (status_code r)).
      * rewrite (IH _ _ _ _ H). rewrite !get_urls_snoc.
        cbn [req_method lookup req_url st_found current_path].
        now rewrite app_nil_r, <- app_assoc.
      * destruct (provider w _ _) as [r'|e']; [|discriminate].
        destruct (in_200_201 (status_code r')).
        -- rewrite (IH _ _ _ _ H). rewrite !get_urls_snoc.
           cbn [req_method lookup creation req_url st_created current_path].
           now rewrite !app_nil_r, <- app_assoc.
        -- destruct (json r'); discriminate.
    + destruct p; [|discriminate].
      rewrite for_parts_skip in H. now rewrite (IH _ _ _ _ H).
Qed.

(** X5: Whenever [create_folder_by_path] returns a locator, its lookups were,
    in this order, one for each non-empty segment of the path, each under
    the segments before it; no segment was looked up twice. *)
Theorem create_folder_by_path_lookups (path locator : string) :
  fst (create_folder_by_path cfg w path []) = Ret (VStr locator) ->
  get_urls (snd (create_folder_by_path cfg w path []))
  = lookup_urls (graph_sites cfg) "drive/root:"
      (PyStr.filter_none (PyStr.split "/" path)).
Proof.
  destruct (identity w [] (msal_request cfg)) as [[tok|]|e] eqn:Htok.
  2,3: unfold create_folder_by_path, bind;
       rewrite fetch_header_run, Htok; discriminate.
  rewrite (create_folder_by_path_log cfg w path tok [] Htok).
  rewrite (create_folder_by_path_run cfg w path tok [] Htok). cbv zeta.
  fold (st_entry tok).
  destruct (for_parts cfg w _ _ _) as [[[st|v]|e] log'] eqn:Hrun;
    cbn [fst snd].
  - intros _. now rewrite (for_parts_lookups _ _ _ _ _ Hrun).
  - intros H. inversion H; subst.
    pose proof (for_parts_return (PyStr.split "/" path) (st_entry tok)
                  ([] ++ [EvToken (msal_request cfg) (Ret (Some tok))])%list
                  (VStr locator)) as Hv.
    rewrite Hrun in Hv. specialize (Hv eq_refl). discriminate.
  - discriminate.
Qed.

End ResolverRequests.

Lemma create_folder_by_path_lookups_witness :
  get_urls (snd (create_folder_by_path sample_cfg
                   (folders_world [sample_root ++ "/x"] 201) "x//y/z/" []))
  = lookup_urls (graph_sites sample_cfg) "drive/root:"
      (PyStr.filter_none (PyStr.split "/" "x//y/z/")).
Proof.
  apply (create_folder_by_path_lookups sample_cfg
           (folders_world [sample_root ++ "/x"] 201) "x//y/z/"
           (sample_root ++ "/x/y/:/children")).
  reflexivity.
Defined.

(** ** How the resolver ends *)

Section ResolverEnds.

Variable cfg : config.
Variable w : world.

Ltac in_log :=
  solve [ repeat first
            [ assumption
            | apply in_or_app; right; simpl; now left
            | apply in_or_app; left ] ].

(** The log only grows. *)
Lemma for_parts_extends (parts : list string) :
  forall (st : locals) (log : list event),
    exists evs, snd (for_parts cfg w parts st log) = (log ++ evs)%list.
Proof.
  induction parts as [|p rest IH]; intros st log.
  - exists []. simpl. now rewrite app_nil_r.
  - destruct (PyStr.truthy p) eqn:Hp.
    + rewrite (for_parts_step cfg w p rest st log Hp).
      destruct (provider w log _) as [r|e]; [|now eexists].
      cbv zeta.
      destruct (in_200_201 (status_code r)).
      * destruct (IH (st_found p st)
                    ((log ++ [EvHttp (lookup cfg p st) (Ret r)])
                       ++ [EvPrint [VStr ("Folder '" ++ p ++ "' exists.")]])%list)
          as [evs H].
        rewrite H. rewrite <- !app_assoc. now eexists.
      * destruct (provider w _ _) as [r'|e'];
          [|cbn [snd]; rewrite <- !app_assoc; now eexists].
        destruct (in_200_201 (status_code r')).
        -- destruct (IH (st_created cfg p st)
                       (((log ++ [EvHttp (lookup cfg p st) (Ret r)])
                           ++ [EvHttp (creation cfg p st) (Ret r')])
                          ++ [EvPrint [VStr ("Folder '" ++ p ++ "' created.")]])%list)
             as [evs H].
           rewrite H. rewrite <- !app_assoc. now eexists.
        -- destruct (json r'); cbn [snd]; rewrite <- !app_assoc; now eexists.
    + destruct p; [|discriminate].
      rewrite for_parts_skip. apply IH.
Qed.

(** X6: A lookup answered with any status other than 200 and 201 - a 404, but
    just as well a 401, a 500 or a 204 - is taken as "no such folder": the
    very next request of the run is the creation of that segment under the
    folder reached so far, with the rename-on-conflict policy. *)
Theorem lookup_not_ok_then_creation
  (p : string) (rest : list string) (st : locals) (log : list event)
  (r : response) :
  PyStr.truthy p = true ->
  provider w log (lookup cfg p st) = Ret r ->
  in_200_201 (status_code r) = false ->
  exists out evs,
    snd (for_parts cfg w (p :: rest) st log)
    = (log ++ [EvHttp (lookup cfg p st) (Ret r);
               EvHttp (creation cfg p st) out] ++ evs)%list
    /\ req_method (creation cfg p st) = POST
    /\ req_url (creation cfg p st)
       = graph_sites cfg ++ "/" ++ current_path st ++ ":/children"
    /\ req_body (creation cfg p st) = JsonBody (folder_data p).
Proof.
  intros Hp E K. rewrite (for_parts_step cfg w p rest st log Hp), E.
  cbv zeta. rewrite K.
  destruct (provider w (log ++ [EvHttp (lookup cfg p st) (Ret r)])
                     (creation cfg p st)) as [r'|e'].
  - exists (Ret r').
    destruct (in_200_201 (status_code r')).
    + destruct (for_parts_extends rest (st_created cfg p st)
                  (((log ++ [EvHttp (lookup cfg p st) (Ret r)])
                      ++ [EvHttp (creation cfg p st) (Ret r')])
                     ++ [EvPrint [VStr ("Folder '" ++ p ++ "' created.")]])%list)
        as [evs H].
      exists ([EvPrint [VStr ("Folder '" ++ p ++ "' created.")]] ++ evs)%list.
      split; [|now repeat split].
      rewrite H. now rewrite <- !app_assoc.
    + destruct (json r') as [body|e].
      * exists [EvPrint [VStr ("Error creating folder '" ++ p ++ "':"); body]].
        split; [|now repeat split].
        cbn [snd]. now rewrite <- !app_assoc.
      * exists []. split; [|now repeat split].
        cbn [snd]. now rewrite <- !app_assoc.
  - exists (Raise e'), []. split; [|now repeat split].
    cbn [snd]. now rewrite <- !app_assoc.
Qed.

(** The loop returns early only right after a creation request that was
    answered with a status other than 200 and 201 and a body that decodes. *)
Lemma for_parts_failure (parts : list string) :
  forall (st : locals) (log : list event) (v : value),
    fst (for_parts cfg w parts st log) = Ret (Return v) ->
    exists past rq r body msg,
      snd (for_parts cfg w parts st log)
      = (past ++ [EvHttp rq (Ret r); EvPrint [VStr msg; body]])%list
      /\ req_method rq = POST
      /\ in_200_201 (status_code r) = false
      /\ json r = Ret body.
Proof.
  induction parts as [|p rest IH]; intros st log v H; [discriminate|].
  destruct (PyStr.truthy p) eqn:Hp.
  - rewrite (for_parts_step cfg w p rest st log Hp) in H |- *.
    destruct (provider w log _) as [r|e]; [|discriminate].
    cbv zeta in H |- *.
    destruct (in_200_201 (status_code r)); [now apply (IH _ _ _ H)|].
    destruct (provider w _ _) as [r'|e']; [|discriminate].
    destruct (in_200_201 (status_code r')) eqn:K';
      [now apply (IH _ _ _ H)|].
    destruct (json r') as [body|e] eqn:J; [|discriminate].
    exists (log ++ [EvHttp (lookup cfg p st) (Ret r)])%list,
           (creation cfg p st), r', body,
           ("Error creating folder '" ++ p ++ "':").
    repeat split; try assumption.
    cbn [snd]. now rewrite <- !app_assoc.
  - destruct p; [|discriminate].
    rewrite for_parts_skip in H |- *. now apply (IH _ _ _ H).
Qed.

(** X7: [create_folder_by_path] returns [-1] only right after a creation
    request that the provider answered with a status other than 200 and
    201 (and a body that decodes as JSON); after that answer it prints the
    error and requests nothing more. *)
Theorem create_folder_by_path_failure (path : string) :
  fst (create_folder_by_path cfg w path []) = Ret failure ->
  exists past rq r body msg,
    snd (create_folder_by_path cfg w path [])
    = (past ++ [EvHttp rq (Ret r); EvPrint [VStr msg; body]])%list
    /\ req_method rq = POST
    /\ in_200_201 (status_code r) = false
    /\ json r = Ret body.
Proof.
  destruct (identity w [] (msal_request cfg)) as [[tok|]|e] eqn:Htok.
  2,3: unfold create_folder_by_path, bind;
       rewrite fetch_header_run, Htok; discriminate.
  rewrite (create_folder_by_path_log cfg w path tok [] Htok).
  rewrite (create_folder_by_path_run cfg w path tok [] Htok). cbv zeta.
  fold (st_entry tok).
  destruct (fst (for_parts cfg w _ _ _)) as [[st|v]|e] eqn:Hrun.
  - destruct (create_url st); [destruct (part st)|]; discriminate.
  - intros _. now apply (for_parts_failure _ _ _ v).
  - discriminate.
Qed.

(** What the loop can raise: what the HTTP client raised on a request, or
    what decoding the body of a refused creation raised. *)
Lemma for_parts_raises (parts : list string) :
  forall (st : locals) (log : list event) (e : exn),
    fst (for_parts cfg w parts st log) = Raise e ->
    (exists rq, In (EvHttp rq (Raise e)) (snd (for_parts cfg w parts st log)))
    \/ (exists rq r,
           In (EvHttp rq (Ret r)) (snd (for_parts cfg w parts st log))
           /\ req_method rq = POST
           /\ in_200_201 (status_code r) = false
           /\ json r = Raise e).
Proof.
  induction parts as [|p rest IH]; intros st log e H; [discriminate|].
  destruct (PyStr.truthy p) eqn:Hp.
  - rewrite (for_parts_step cfg w p rest st log Hp) in H |- *.
    destruct (provider w log _) as [r|e0].
    2:{ cbn [fst] in H. inversion H; subst. left. eexists. cbn [snd]. in_log. }
    cbv zeta in H |- *.
    destruct (in_200_201 (status_code r)); [now apply IH|].
    destruct (provider w _ _) as [r'|e0].
    2:{ cbn [fst] in H. inversion H; subst. left. eexists. cbn [snd]. in_log. }
    destruct (in_200_201 (status_code r')) eqn:K'; [now apply IH|].
    destruct (json r') as [body|e0] eqn:J; [discriminate|].
    cbn [fst] in H. inversion H; subst. right.
    exists (creation cfg p st), r'. repeat split; try assumption.
    cbn [snd]. in_log.
  - destruct p; [|discriminate].
    rewrite for_parts_skip in H |- *. now apply IH.
Qed.

(** X8: Every exception [create_folder_by_path] lets out is one of these: what
    the identity provider raised; [KeyError] for a token answer without
    [access_token]; what the HTTP client raised on a request of the run;
    what decoding the body of a refused creation raised; or
    [UnboundLocalError] for [create_url].  The variable [part] is always
    bound. *)
Theorem create_folder_by_path_raises (path : string) (e : exn) :
  fst (create_folder_by_path cfg w path []) = Raise e ->
  identity w [] (msal_request cfg) = Raise e
  \/ (identity w [] (msal_request cfg) = Ret None
      /\ e = KeyError "access_token")
  \/ (exists rq,
         In (EvHttp rq (Raise e)) (snd (create_folder_by_path cfg w path [])))
  \/ (exists rq r,
         In (EvHttp rq (Ret r)) (snd (create_folder_by_path cfg w path []))
         /\ req_method rq = POST
         /\ in_200_201 (status_code r) = false
         /\ json r = Raise e)
  \/ e = UnboundLocalError "create_url".
Proof.
  destruct (identity w [] (msal_request cfg)) as [[tok|]|e0] eqn:Htok.
  2:{ unfold create_folder_by_path, bind. rewrite fetch_header_run, Htok.
      cbn [fst]. intros H. inversion H. right. left. now split. }
  2:{ unfold create_folder_by_path, bind. rewrite fetch_header_run, Htok.
      cbn [fst]. intros H. inversion H. now left. }
  rewrite (create_folder_by_path_log cfg w path tok [] Htok).
  rewrite (create_folder_by_path_run cfg w path tok [] Htok). cbv zeta.
  fold (st_entry tok).
  destruct (for_parts cfg w _ _ _) as [[[st|v]|e0] log'] eqn:Hrun;
    cbn [fst snd].
  - pose proof (for_parts_part cfg w _ _ _ _ _ Hrun) as Hpart.
    destruct (PyStr.split "/" path) as [|p0 ps] eqn:Hs;
      [now destruct (split_not_nil "/" path)|].
    rewrite Hpart.
    destruct (create_url st); cbn [fst]; intros H; inversion H.
    now repeat right.
  - discriminate.
  - intros H. inversion H; subst e0.
    right. right.
    pose proof (for_parts_raises (PyStr.split "/" path) (st_entry tok)
                  ([] ++ [EvToken (msal_request cfg) (Ret (Some tok))])%list e)
      as Hr.
    rewrite Hrun in Hr. cbn [fst snd] in Hr.
    destruct (Hr eq_refl) as [Hc|Hc]; [now left | right; now left].
Qed.

End ResolverEnds.

(** ** Download resolution and its route *)

Section FetchFacts.

Variable cfg : config.
Variable w : world.

(** [fetch_file] never raises, and what it returns beside [-1] is truthy. *)
Lemma fetch_file_returns (path filename : string) (log : list event) :
  exists v,
    fst (fetch_file cfg w path filename log) = Ret v
    /\ (v = failure \/ truthy v = true).
Proof.
  rewrite fetch_file_cases.
  destruct (identity w log (msal_request cfg)) as [[tok|]|e] eqn:Htok;
    try (exists failure; split; [reflexivity | now left]).
  cbv zeta.
  destruct (provider w _ (metadata_request cfg tok path filename))
    as [r|e] eqn:Hget;
    [|exists failure; split; [reflexivity | now left]].
  rewrite (fetch_file_run cfg w path filename tok log r Htok Hget). cbv zeta.
  repeat match goal with
         | |- context [if ?b then _ else _] =>
             destruct b; [exists failure; split; [reflexivity | now left]|]
         end.
  destruct (json r) as [[| | | | |d]|e];
    try (exists failure; split; [reflexivity | now left]).
  cbv zeta. destruct (truthy _) eqn:T;
    [|exists failure; split; [reflexivity | now left]].
  eexists. split; [reflexivity | now right].
Qed.

Lemma fetch_file_calls (path filename : string) :
  http_calls (snd (fetch_file cfg w path filename []))
  = match identity w [] (msal_request cfg) with
    | Ret (Some tok) => [metadata_request cfg tok path filename]
    | _ => []
    end.
Proof.
  rewrite fetch_file_cases.
  destruct (identity w [] (msal_request cfg)) as [[tok|]|e] eqn:Htok;
    try reflexivity.
  cbv zeta.
  destruct (provider w _ (metadata_request cfg tok path filename))
    as [r|e] eqn:Hget; [|reflexivity].
  rewrite (fetch_file_run cfg w path filename tok [] r Htok Hget). cbv zeta.
  repeat match goal with
         | |- context [if ?b then _ else _] => destruct b
         end; try reflexivity.
  destruct (json r) as [[| | | | |d]|e]; try reflexivity.
  cbv zeta. destruct (truthy _); reflexivity.
Qed.

(** X11: [fetch_file] only reads: with a token it puts exactly one request, the
    metadata GET for the normalized path and the file name, whatever the
    answer; without a token it puts none. *)
Theorem fetch_file_requests (path filename : string) :
  map summary (http_calls (snd (fetch_file cfg w path filename [])))
  = match identity w [] (msal_request cfg) with
    | Ret (Some tok) =>
        [(GET,
          graph_sites cfg ++ "/drive/root:/" ++ clean_sharepoint_path path
            ++ "/" ++ filename,
          NoBody)]
    | _ => []
    end.
Proof.
  rewrite fetch_file_calls.
  now destruct (identity w [] (msal_request cfg)) as [[tok|]|e].
Qed.

(** X12: A 200/201 answer whose body does not decode as JSON, or decodes to
    something that is no object, gives [-1]: the exception is caught. *)
Theorem fetch_file_bad_body
  (path filename tok : string) (log : list event) (r : response) :
  identity w log (msal_request cfg) = Ret (Some tok) ->
  provider w (log ++ [EvToken (msal_request cfg) (Ret (Some tok))])
           (metadata_request cfg tok path filename) = Ret r ->
  in_200_201 (status_code r) = true ->
  (forall d, json r <> Ret (VDict d)) ->
  fst (fetch_file cfg w path filename log) = Ret failure
  /\ exists msg,
      printed (snd (fetch_file cfg w path filename log))
      = (printed log ++ [[VStr ("Error fetching file: " ++ msg)]])%list.
Proof.
  intros Htok Hget K Hbody.
  rewrite (fetch_file_run cfg w path filename tok log r Htok Hget). cbv zeta.
  destruct (status_200_201 _ K) as [K1 [K2 K3]].
  rewrite K1, K2, K3, K. cbv beta iota delta [negb].
  assert (Hp : forall l ev,
             printed (l ++ [ev])
             = (printed l ++ match ev with EvPrint a => [a] | _ => [] end)%list).
  { induction l as [|x l IH]; intros ev; [now destruct ev|].
    simpl. rewrite IH. now destruct x. }
  destruct (json r) as [[| | | | |d]|e];
    try (split; [reflexivity|]; eexists; cbn [snd]; rewrite !Hp;
         rewrite !app_nil_r; reflexivity).
  now destruct (Hbody d).
Qed.

(** The route adds nothing to what [fetch_file] does. *)
Lemma fetch_file_endpoint_log (filepath : string) (log : list event) :
  snd (fetch_file_endpoint cfg w filepath log)
  = snd (fetch_file cfg w
           (clean_sharepoint_path
              (match fst (PyStr.rsplit1 "/" filepath) with
               | Some d => d
               | None => ""
               end))
           (snd (PyStr.rsplit1 "/" filepath)) log).
Proof.
  unfold fetch_file_endpoint, try_except, bind. cbv zeta.
  destruct (fetch_file cfg w _ _ log) as [[v|e] log']; cbn [snd];
    [|reflexivity].
  destruct (eq_int v (-1)); reflexivity.
Qed.

(** X13: The fetch route answers in one of two ways only: 404 with the one error
    text, whatever went wrong (a 401, a 403, a 500, no token, a broken
    body), or 200 with the three fields.  Its own 500 branch is never
    taken. *)
Theorem fetch_file_endpoint_answers (filepath : string) (log : list event) :
  fst (fetch_file_endpoint cfg w filepath log)
  = Ret (VDict [("error", VStr "Failed to fetch file")], 404)
  \/ exists url,
      truthy url = true
      /\ fst (fetch_file_endpoint cfg w filepath log)
         = Ret (VDict [("download_url", url);
                       ("filename", VStr (snd (PyStr.rsplit1 "/" filepath)));
                       ("path",
                        VStr (clean_sharepoint_path
                                (match fst (PyStr.rsplit1 "/" filepath) with
                                 | Some d => d
                                 | None => ""
                                 end)))], 200).
Proof.
  unfold fetch_file_endpoint, try_except, bind. cbv zeta.
  match goal with
  | |- context [fetch_file cfg w ?p ?f log] =>
      destruct (fetch_file_returns p f log) as [v [Hv Ht]];
      destruct (fetch_file cfg w p f log) as [r log']
  end.
  cbn [fst] in Hv. subst r.
  destruct Ht as [->|Ht]; [now left|].
  destruct (eq_int v (-1)); [now left|].
  right. exists v. now split.
Qed.

End FetchFacts.

(** X14: [rsplit('/', 1)] as the fetch route uses it: the file name holds no
    separator, and directory, separator and file name give the file path
    back; a file path without separator is all file name. *)
Theorem rsplit1_parts (filepath : string) :
  PyStr.occurs "/" (snd (PyStr.rsplit1 "/" filepath)) = false
  /\ match fst (PyStr.rsplit1 "/" filepath) with
     | Some dir => filepath = dir ++ "/" ++ snd (PyStr.rsplit1 "/" filepath)
     | None => filepath = snd (PyStr.rsplit1 "/" filepath)
     end.
Proof.
  induction filepath as [|a s [IH1 IH2]]; [now split|].
  simpl. destruct (PyStr.rsplit1 "/" s) as [[dir|] name]; simpl in *.
  - split; [exact IH1 | now rewrite IH2].
  - destruct (Ascii.eqb a "/") eqn:E; simpl.
    + apply Ascii.eqb_eq in E. subst a. split; [exact IH1 | now rewrite IH2].
    + split; [now rewrite E | now rewrite IH2].
Qed.

Lemma rsplit1_no_separator (s : string) :
  PyStr.occurs "/" s = false -> PyStr.rsplit1 "/" s = (None, s).
Proof.
  induction s as [|a s IH]; intros H; [reflexivity|].
  apply occurs_cons_false in H as [E H]. simpl. now rewrite (IH H), E.
Qed.

(** X15: For a file at the root of the drive (a file path without separator)
    the fetch route asks for [<site>/drive/root://<name>]: the empty
    directory leaves an empty segment in the URL. *)
Theorem fetch_root_file_request
  (cfg : config) (w : world) (name tok : string) :
  PyStr.occurs "/" name = false ->
  identity w [] (msal_request cfg) = Ret (Some tok) ->
  map summary (http_calls (snd (fetch_file_endpoint cfg w name [])))
  = [(GET, graph_sites cfg ++ "/drive/root://" ++ name, NoBody)].
Proof.
  intros Hname Htok. rewrite fetch_file_endpoint_log.
  rewrite (rsplit1_no_separator name Hname). cbn [fst snd].
  change (clean_sharepoint_path "") with "".
  rewrite (fetch_file_calls cfg w "" name), Htok. reflexivity.
Qed.

(** ** The upload route *)

Section UploadRoute.

Variable cfg : config.
Variable w : world.

(** The route once a file part with a name is there: resolver first, then
    upload, each outcome mapped to a reply. *)
Lemma upload_file_endpoint_run
  (rq : flask_request) (file : file_storage) (log : list event) :
  assoc "file" (files rq) = Some file ->
  fs_filename file <> "" ->
  upload_file_endpoint cfg w rq log
  = match create_folder_by_path cfg w (route_path rq) log with
    | (Raise e, log1) => (Ret (VDict [("error", VStr (str_exn e))], 500), log1)
    | (Ret folder_path, log1) =>
        if eq_int folder_path (-1) then
          (Ret (VDict [("error", VStr "Failed to create folder structure")], 500),
           log1)
        else
          match upload_file cfg w (route_path rq) (fs_filename file)
                            (fs_contents file) log1 with
          | (Raise e, log2) =>
              (Ret (VDict [("error", VStr (str_exn e))], 500), log2)
          | (Ret result, log2) =>
              if eq_int result (-1) then
                (Ret (VDict [("error", VStr "Failed to upload file")], 500), log2)
              else
                (Ret (VDict [("message", VStr "File uploaded successfully");
                             ("path", result)], 201), log2)
          end
    end.
Proof.
  intros Hfile Hname. unfold upload_file_endpoint, try_except.
  rewrite Hfile.
  destruct (String.eqb (fs_filename file) "") eqn:E;
    [now apply String.eqb_eq in E|].
  unfold bind. fold (route_path rq).
  destruct (create_folder_by_path cfg w (route_path rq) log)
    as [[folder_path|e] log1]; [|reflexivity].
  destruct (eq_int folder_path (-1)); [reflexivity|].
  destruct (upload_file cfg w _ _ _ log1) as [[result|e] log2];
    [|reflexivity].
  destruct (eq_int result (-1)); reflexivity.
Qed.

(** X17: A request without a file part, or with a file part without a name, is
    turned down with 400 before anything is asked of the identity provider
    or the provider. *)
Theorem upload_file_endpoint_validation
  (rq : flask_request) (log : list event) :
  (assoc "file" (files rq) = None
   \/ exists file, assoc "file" (files rq) = Some file /\ fs_filename file = "") ->
  exists msg,
    upload_file_endpoint cfg w rq log
    = (Ret (VDict [("error", VStr msg)], 400), log).
Proof.
  intros [H|[file [H Hn]]]; unfold upload_file_endpoint, try_except;
    rewrite H.
  - now eexists.
  - rewrite Hn. now eexists.
Qed.

(** X18: The upload route never lets an exception out and answers in one of
    three ways only: 201 with [message] and [path], or 400 or 500 with an
    [error] text. *)
Theorem upload_file_endpoint_answers (rq : flask_request) (log : list event) :
  (exists locator,
      fst (upload_file_endpoint cfg w rq log)
      = Ret (VDict [("message", VStr "File uploaded successfully");
                    ("path", locator)], 201))
  \/ (exists msg status,
         fst (upload_file_endpoint cfg w rq log)
         = Ret (VDict [("error", VStr msg)], status)
         /\ (status = 400 \/ status = 500)).
Proof.
  destruct (assoc "file" (files rq)) as [file|] eqn:Hfile.
  2:{ right. unfold upload_file_endpoint, try_except. rewrite Hfile.
      eexists _, 400. split; [reflexivity | now left]. }
  destruct (string_dec (fs_filename file) "") as [Hn|Hn].
  { right. unfold upload_file_endpoint, try_except. rewrite Hfile, Hn.
    eexists _, 400. split; [reflexivity | now left]. }
  rewrite (upload_file_endpoint_run rq file log Hfile Hn).
  destruct (create_folder_by_path cfg w _ log) as [[folder_path|e] log1].
  2:{ right. eexists _, 500. split; [reflexivity | now right]. }
  destruct (eq_int folder_path (-1)).
  { right. eexists _, 500. split; [reflexivity | now right]. }
  destruct (upload_file cfg w _ _ _ log1) as [[result|e] log2].
  2:{ right. eexists _, 500. split; [reflexivity | now right]. }
  destruct (eq_int result (-1)).
  - right. eexists _, 500. split; [reflexivity | now right].
  - left. now eexists.
Qed.

(** X19: When the resolver returns [-1] or raises, the route answers 500 and
    goes no further: its log is the resolver's, so no content is written. *)
Theorem upload_file_endpoint_no_folder
  (rq : flask_request) (file : file_storage) (log : list event) :
  assoc "file" (files rq) = Some file ->
  fs_filename file <> "" ->
  (fst (create_folder_by_path cfg w (route_path rq) log) = Ret failure
   \/ exists e,
       fst (create_folder_by_path cfg w (route_path rq) log) = Raise e) ->
  exists msg,
    upload_file_endpoint cfg w rq log
    = (Ret (VDict [("error", VStr msg)], 500),
       snd (create_folder_by_path cfg w (route_path rq) log)).
Proof.
  intros Hfile Hname Hres.
  rewrite (upload_file_endpoint_run rq file log Hfile Hname).
  destruct (create_folder_by_path cfg w (route_path rq) log)
    as [[v|e] log1]; cbn [fst snd] in *.
  - destruct Hres as [H|[e H]]; [|discriminate].
    inversion H; subst. now eexists.
  - now eexists.
Qed.

(** X20: When the resolver returns a locator and the content write is answered
    with 200 or 201, the route answers 201, and the [path] it reports is the
    URL of the write, [<site>/drive/root:/<path>/<filename>:/content] with
    the normalized path: the resolver's locator is looked at only to see
    that it is not [-1]. *)
Theorem upload_file_endpoint_success
  (rq : flask_request) (file : file_storage) (locator tok : string)
  (r : response) :
  let folder := create_folder_by_path cfg w (route_path rq) [] in
  let log1 := (snd folder ++ [EvToken (msal_request cfg) (Ret (Some tok))])%list in
  let put := content_write cfg tok (route_path rq) (fs_filename file)
                           (fs_contents file) in
  assoc "file" (files rq) = Some file ->
  fs_filename file <> "" ->
  fst folder = Ret (VStr locator) ->
  identity w (snd folder) (msal_request cfg) = Ret (Some tok) ->
  provider w log1 put = Ret r ->
  in_200_201 (status_code r) = true ->
  upload_file_endpoint cfg w rq []
  = (Ret (VDict [("message", VStr "File uploaded successfully");
                 ("path",
                  VStr (spec_root_handle cfg ++ "/" ++ route_path rq ++ "/"
                          ++ fs_filename file ++ ":/content"))], 201),
     ((log1 ++ [EvHttp put (Ret r)])
        ++ [EvPrint [VStr ("Successfully uploaded " ++ fs_filename file)]])%list).
Proof.
  cbv zeta. intros Hfile Hname Hfolder Htok Hput K.
  rewrite (upload_file_endpoint_run rq file [] Hfile Hname).
  destruct (create_folder_by_path cfg w (route_path rq) [])
    as [res log0]; cbn [fst snd] in *. subst res.
  cbn [eq_int].
  rewrite upload_file_cases, Htok. cbv zeta. rewrite Hput, K.
  reflexivity.
Qed.

(** The resolver also raises when every lookup of its run is answered with
    200 or 201, from any log on. *)
Lemma create_folder_by_path_found_raises (path : string) :
  lookups_ok (snd (create_folder_by_path cfg w path [])) ->
  exists e, fst (create_folder_by_path cfg w path []) = Raise e.
Proof.
  intros Hok.
  destruct (identity w [] (msal_request cfg)) as [[tok|]|e] eqn:Htok.
  2,3: apply create_folder_by_path_no_token; intros tok; congruence.
  rewrite (create_folder_by_path_log cfg w path tok [] Htok) in Hok.
  rewrite (create_folder_by_path_run cfg w path tok [] Htok). cbv zeta.
  unfold st_entry in Hok.
  match type of Hok with
  | lookups_ok (snd (for_parts cfg w ?ps ?st ?lg)) =>
      destruct (for_parts_all_found cfg w ps st lg eq_refl Hok)
        as [st' [Hr Hc]]
  end.
  rewrite Hr, Hc. now eexists.
Qed.

(** X21: An upload into a chain of folders that all exist already fails: the
    route answers 500 and writes no content. *)
Theorem upload_into_existing_folders
  (rq : flask_request) (file : file_storage) :
  assoc "file" (files rq) = Some file ->
  fs_filename file <> "" ->
  lookups_ok (snd (create_folder_by_path cfg w (route_path rq) [])) ->
  exists msg,
    upload_file_endpoint cfg w rq []
    = (Ret (VDict [("error", VStr msg)], 500),
       snd (create_folder_by_path cfg w (route_path rq) [])).
Proof.
  intros Hfile Hname Hok.
  rewrite (upload_file_endpoint_run rq file [] Hfile Hname).
  destruct (create_folder_by_path_found_raises _ Hok) as [e He].
  destruct (create_folder_by_path cfg w (route_path rq) [])
    as [res log1]; cbn [fst snd] in *. subst res. now eexists.
Qed.

(** X22: An upload whose path is absent, empty or made of separators only (it
    normalizes to the empty path) fails: the route answers 500 without a
    single request to the provider. *)
Theorem upload_to_root
  (rq : flask_request) (file : file_storage) :
  assoc "file" (files rq) = Some file ->
  fs_filename file <> "" ->
  route_path rq = "" ->
  (exists msg,
      fst (upload_file_endpoint cfg w rq [])
      = Ret (VDict [("error", VStr msg)], 500))
  /\ http_calls (snd (upload_file_endpoint cfg w rq [])) = [].
Proof.
  intros Hfile Hname Hpath.
  rewrite (upload_file_endpoint_run rq file [] Hfile Hname), Hpath.
  destruct (identity w [] (msal_request cfg)) as [[tok|]|e] eqn:Htok.
  - rewrite (create_folder_by_path_run cfg w "" tok [] Htok).
    split; [now eexists | reflexivity].
  - unfold create_folder_by_path, bind. rewrite fetch_header_run, Htok.
    split; [now eexists | reflexivity].
  - unfold create_folder_by_path, bind. rewrite fetch_header_run, Htok.
    split; [now eexists | reflexivity].
Qed.

End UploadRoute.

(** ** Instances on the sample providers *)

Lemma lookup_not_ok_then_creation_witness :
  exists out evs,
    snd (for_parts sample_cfg (constant_world (Ret (answer 401)))
           ["x"] (st_entry "tok") [])
    = ([] ++ [EvHttp (lookup sample_cfg "x" (st_entry "tok")) (Ret (answer 401));
              EvHttp (creation sample_cfg "x" (st_entry "tok")) out] ++ evs)%list
    /\ req_method (creation sample_cfg "x" (st_entry "tok")) = POST
    /\ req_url (creation sample_cfg "x" (st_entry "tok"))
       = graph_sites sample_cfg ++ "/" ++ current_path (st_entry "tok")
           ++ ":/children"
    /\ req_body (creation sample_cfg "x" (st_entry "tok"))
       = JsonBody (folder_data "x").
Proof.
  apply (lookup_not_ok_then_creation sample_cfg
           (constant_world (Ret (answer 401))) "x" [] (st_entry "tok") []
           (answer 401));
    reflexivity.
Defined.

Lemma create_folder_by_path_failure_witness :
  exists past rq r body msg,
    snd (create_folder_by_path sample_cfg
           (folders_world [sample_root ++ "/x"] 500) "x/y/z" [])
    = (past ++ [EvHttp rq (Ret r); EvPrint [VStr msg; body]])%list
    /\ req_method rq = POST
    /\ in_200_201 (status_code r) = false
    /\ json r = Ret body.
Proof.
  apply (create_folder_by_path_failure sample_cfg
           (folders_world [sample_root ++ "/x"] 500) "x/y/z").
  reflexivity.
Defined.

Lemma create_folder_by_path_raises_witness :
  identity (constant_world (Raise (LibraryError "ConnectionError" "refused")))
           [] (msal_request sample_cfg)
  = Raise (LibraryError "ConnectionError" "refused")
  \/ (identity (constant_world (Raise (LibraryError "ConnectionError" "refused")))
               [] (msal_request sample_cfg) = Ret None
      /\ LibraryError "ConnectionError" "refused" = KeyError "access_token")
  \/ (exists rq,
         In (EvHttp rq (Raise (LibraryError "ConnectionError" "refused")))
            (snd (create_folder_by_path sample_cfg
                    (constant_world
                       (Raise (LibraryError "ConnectionError" "refused")))
                    "x/y" [])))
  \/ (exists rq r,
         In (EvHttp rq (Ret r))
            (snd (create_folder_by_path sample_cfg
                    (constant_world
                       (Raise (LibraryError "ConnectionError" "refused")))
                    "x/y" []))
         /\ req_method rq = POST
         /\ in_200_201 (status_code r) = false
         /\ json r = Raise (LibraryError "ConnectionError" "refused"))
  \/ LibraryError "ConnectionError" "refused" = UnboundLocalError "create_url".
Proof.
  apply (create_folder_by_path_raises sample_cfg
           (constant_world (Raise (LibraryError "ConnectionError" "refused")))
           "x/y").
  reflexivity.
Defined.


Lemma fetch_file_bad_body_witness :
  fst (fetch_file sample_cfg
         (constant_world
            (Ret (mkResponse 200 "<html>"
                    (Raise (LibraryError "JSONDecodeError" "Expecting value")))))
         "a/b" "report.pdf" [])
  = Ret failure
  /\ exists msg,
      printed (snd (fetch_file sample_cfg
                      (constant_world
                         (Ret (mkResponse 200 "<html>"
                                 (Raise (LibraryError "JSONDecodeError"
                                                      "Expecting value")))))
                      "a/b" "report.pdf" []))
      = (printed [] ++ [[VStr ("Error fetching file: " ++ msg)]])%list.
Proof.
  apply (fetch_file_bad_body sample_cfg _ "a/b" "report.pdf" "tok" []
           (mkResponse 200 "<html>"
              (Raise (LibraryError "JSONDecodeError" "Expecting value"))));
    try reflexivity.
  intros d. discriminate.
Defined.

Lemma fetch_root_file_request_witness :
  map summary
    (http_calls (snd (fetch_file_endpoint sample_cfg
                        (constant_world (Ret (answer 404))) "report.pdf" [])))
  = [(GET, graph_sites sample_cfg ++ "/drive/root://" ++ "report.pdf", NoBody)].
Proof.
  apply (fetch_root_file_request sample_cfg
           (constant_world (Ret (answer 404))) "report.pdf" "tok");
    reflexivity.
Defined.

Lemma upload_file_endpoint_validation_witness :
  exists msg,
    upload_file_endpoint sample_cfg (folders_world [] 201)
      (mkFlaskRequest [("file", mkFile "" "abc")] [("path", "x")]) []
    = (Ret (VDict [("error", VStr msg)], 400), []).
Proof.
  apply (upload_file_endpoint_validation sample_cfg (folders_world [] 201)).
  right. exists (mkFile "" "abc"). split; reflexivity.
Defined.

Lemma upload_file_endpoint_no_folder_witness :
  exists msg,
    upload_file_endpoint sample_cfg (folders_world [] 500)
      (mkFlaskRequest [("file", mkFile "f.txt" "abc")] [("path", "x")]) []
    = (Ret (VDict [("error", VStr msg)], 500),
       snd (create_folder_by_path sample_cfg (folders_world [] 500)
              (route_path
                 (mkFlaskRequest [("file", mkFile "f.txt" "abc")]
                                 [("path", "x")])) [])).
Proof.
  apply (upload_file_endpoint_no_folder sample_cfg (folders_world [] 500)
           (mkFlaskRequest [("file", mkFile "f.txt" "abc")] [("path", "x")])
           (mkFile "f.txt" "abc") []).
  - reflexivity.
  - discriminate.
  - left. reflexivity.
Defined.

Lemma upload_file_endpoint_success_witness :
  fst (upload_file_endpoint sample_cfg (folders_world [] 201)
         (mkFlaskRequest [("file", mkFile "f.txt" "abc")] [("path", "/x//y/")])
         [])
  = Ret (VDict [("message", VStr "File uploaded successfully");
                ("path", VStr (sample_root ++ "/x/y/f.txt:/content"))], 201).
Proof.
  rewrite (upload_file_endpoint_success sample_cfg (folders_world [] 201)
             (mkFlaskRequest [("file", mkFile "f.txt" "abc")]
                             [("path", "/x//y/")])
             (mkFile "f.txt" "abc") (sample_root ++ "/x/y:/children") "tok"
             (answer 201));
    try reflexivity.
  discriminate.
Defined.

Lemma upload_into_existing_folders_witness :
  exists msg,
    upload_file_endpoint sample_cfg
      (folders_world [sample_root ++ "/x"; sample_root ++ "/x/y"] 201)
      (mkFlaskRequest [("file", mkFile "f.txt" "abc")] [("path", "x/y")]) []
    = (Ret (VDict [("error", VStr msg)], 500),
       snd (create_folder_by_path sample_cfg
              (folders_world [sample_root ++ "/x"; sample_root ++ "/x/y"] 201)
              (route_path
                 (mkFlaskRequest [("file", mkFile "f.txt" "abc")]
                                 [("path", "x/y")])) [])).
Proof.
  apply (upload_into_existing_folders sample_cfg
           (folders_world [sample_root ++ "/x"; sample_root ++ "/x/y"] 201)
           (mkFlaskRequest [("file", mkFile "f.txt" "abc")] [("path", "x/y")])
           (mkFile "f.txt" "abc")).
  - reflexivity.
  - discriminate.
  - apply lookups_ok_check. vm_compute. reflexivity.
Defined.

Lemma upload_to_root_witness :
  (exists msg,
      fst (upload_file_endpoint sample_cfg (folders_world [] 201)
             (mkFlaskRequest [("file", mkFile "f.txt" "abc")] [("path", "//")])
             [])
      = Ret (VDict [("error", VStr msg)], 500))
  /\ http_calls
       (snd (upload_file_endpoint sample_cfg (folders_world [] 201)
               (mkFlaskRequest [("file", mkFile "f.txt" "abc")]
                               [("path", "//")]) []))
     = [].
Proof.
  apply (upload_to_root sample_cfg (folders_world [] 201)
           (mkFlaskRequest [("file", mkFile "f.txt" "abc")] [("path", "//")])
           (mkFile "f.txt" "abc")).
  - reflexivity.
  - discriminate.
  - reflexivity.
Defined.

(** ** What is requested, and what never is *)

Section RequestKinds.

Variable cfg : config.
Variable w : world.

(** A property of the log that lookups, creations and prints keep is kept
    by the loop. *)
Lemma for_parts_log_invariant (P : list event -> Prop) :
  (forall log args, P log -> P (log ++ [EvPrint args])%list) ->
  (forall log p st out, P log -> P (log ++ [EvHttp (lookup cfg p st) out])%list) ->
  (forall log p st out,
      P log -> P (log ++ [EvHttp (creation cfg p st) out])%list) ->
  forall (parts : list string) (st : locals) (log : list event),
    P log -> P (snd (for_parts cfg w parts st log)).
Proof.
  intros Hprint Hlookup Hcreation.
  induction parts as [|p rest IH]; intros st log HP; [exact HP|].
  destruct (PyStr.truthy p) eqn:Hp.
  - rewrite (for_parts_step cfg w p rest st log Hp).
    pose proof (Hlookup log p st (provider w log (lookup cfg p st)) HP) as HL.
    destruct (provider w log (lookup cfg p st)) as [r|e]; [|exact HL].
    cbv zeta.
    destruct (in_200_201 (status_code r)); [now apply IH, Hprint|].
    match goal with
    | |- context [provider w ?l (creation cfg p st)] =>
        pose proof (Hcreation l p st (provider w l (creation cfg p st)) HL)
          as HC;
        destruct (provider w l (creation cfg p st)) as [r'|e']; [|exact HC]
    end.
    destruct (in_200_201 (status_code r')); [now apply IH, Hprint|].
    destruct (json r'); [now apply Hprint | exact HC].
  - destruct p; [|discriminate].
    rewrite for_parts_skip. now apply IH.
Qed.

(** X10: The resolver only looks up and creates: each of its requests is a GET
    without body or a POST of a folder description (name, empty [folder],
    rename on conflict) to a [:/children] URL.  It never writes content and
    never deletes, so folders made before a refusal stay. *)
Theorem create_folder_by_path_request_kinds (path : string) :
  Forall lookup_or_creation
         (http_calls (snd (create_folder_by_path cfg w path []))).
Proof.
  destruct (identity w [] (msal_request cfg)) as [[tok|]|e] eqn:Htok.
  2,3: unfold create_folder_by_path, bind;
       rewrite fetch_header_run, Htok; constructor.
  rewrite (create_folder_by_path_log cfg w path tok [] Htok).
  apply (for_parts_log_invariant
           (fun log => Forall lookup_or_creation (http_calls log))).
  - intros log args H. now rewrite http_calls_snoc, app_nil_r.
  - intros log p st out H. rewrite http_calls_snoc.
    apply Forall_app. split; [exact H|].
    constructor; [|constructor]. left. now split.
  - intros log p st out H. rewrite http_calls_snoc.
    apply Forall_app. split; [exact H|].
    constructor; [|constructor]. right.
    split; [reflexivity|]. split.
    + now exists p.
    + exists (graph_sites cfg ++ "/" ++ current_path st).
      unfold creation. cbn [req_url]. now rewrite !append_assoc.
  - constructor.
Qed.

(** X16: [upload_file] does one thing: with a token it puts exactly one request,
    a PUT of the contents as they are to
    [<site>/drive/root:/<path>/<filename>:/content], declared [text/plain]
    whatever the file is; it looks up and creates no folder, and without a
    token it requests nothing. *)
Theorem upload_file_requests (path filename contents : string) :
  http_calls (snd (upload_file cfg w path filename contents []))
  = match identity w [] (msal_request cfg) with
    | Ret (Some tok) =>
        [mkRequest PUT
           (spec_root_handle cfg ++ "/" ++ path ++ "/" ++ filename
              ++ ":/content")
           [("Authorization", "Bearer " ++ tok); ("Content-Type", "text/plain")]
           (DataBody contents)]
    | _ => []
    end.
Proof.
  rewrite upload_file_cases.
  destruct (identity w [] (msal_request cfg)) as [[tok|]|e];
    try reflexivity.
  cbv zeta. destruct (provider w _ _) as [r|e]; [|reflexivity].
  destruct (in_200_201 (status_code r)); reflexivity.
Qed.

End RequestKinds.
